(** * Resume Analyzer API: a shallow embedding of [backend/main.py]

    The service receives an uploaded document, extracts its text, sends a
    prompt to a remote completion API and parses the answer as JSON, with
    hand-written fallback payloads.  This development embeds the helper
    functions and the three endpoints as Rocq functions and proves the
    properties stated for them.

    Modelling conventions.
    - A Python [str] is a list of Unicode code points ([list N]); [len] is
      [length], slices are [take] and [drop].
    - A Python object (the result of [json.loads], a dict literal) is a
      [pyobj]; a dict is an association list in insertion order.
    - Code that may raise returns a [result]; code that also touches the
      upload directory or calls the remote API runs in the monad [M], a state
      and exception monad over [world].
    - Everything the repository imports but does not define (case mapping,
      [json.loads], PyPDF2, python-docx, text decoding, the completion
      client, the string form of an [HTTPException]) is a field of the record
      [Env], so every theorem holds whatever these libraries compute.
    - [print] statements write to standard output only and are left out,
      except for the local variable one of them reads.
    - A request is answered in two steps: [respond] gives the status and the
      content that the outcome of the handler calls for, and [sent] is what
      leaves the server once the content has been rendered as JSON, which
      fails on a float that is not finite and on a lone surrogate.
    - Storing an upload can fail before the file is created or after it;
      the second failure leaves the file, since it happens outside the
      [try] block of the endpoint.
    - Files are looked up by the path as it is written: two spellings of
      the path of one file are not identified, and no statement is made
      about files other than the scratch file of a request. *)

From Stdlib Require Import String Ascii NArith ZArith QArith List Bool Lia.
From Stdlib Require Import DecimalString.
From stdpp Require Import base option list gmap.

Set Warnings "-register-all".

Local Open Scope Z_scope.
Local Open Scope list_scope.

(** ** Python strings *)

Abbreviation str := (list N).
Abbreviation bytes := (list Byte.byte).

(** An ASCII literal as a [str]. *)
Definition py (s : string) : str :=
  List.map N_of_ascii (list_ascii_of_string s).

(** A literal of the source that contains double quotes: the character [^]
    (which occurs in no literal of the source) stands for the double quote. *)
Definition lit (s : string) : str :=
  List.map (fun c => if N.eqb c 94 then 34%N else c) (py s).

Definition nl : str := [10%N].

(** [str.isspace] for one code point: the white space that [str.strip()]
    removes (CPython's [_PyUnicode_IsWhitespace]). *)
Definition isspace (c : N) : bool :=
  ((9 <=? c) && (c <=? 13) || (28 <=? c) && (c <=? 32)
   || (c =? 133) || (c =? 160) || (c =? 5760)
   || (8192 <=? c) && (c <=? 8202)
   || (c =? 8232) || (c =? 8233) || (c =? 8239) || (c =? 8287)
   || (c =? 12288))%N.

Fixpoint lstrip (s : str) : str :=
  match s with
  | c :: r => if isspace c then lstrip r else s
  | [] => []
  end.

Definition rstrip (s : str) : str := rev (lstrip (rev s)).

(** [s.strip()] *)
Definition strip (s : str) : str := rstrip (lstrip s).

(** [s.startswith(p)] *)
Fixpoint startswith (s p : str) {struct p} : bool :=
  match p, s with
  | [], _ => true
  | a :: p', b :: s' => N.eqb a b && startswith s' p'
  | _ :: _, [] => false
  end.

(** [s.endswith(p)] *)
Definition endswith (s p : str) : bool := startswith (rev s) (rev p).

(** [s[:-n]] for a positive literal [n]. *)
Definition drop_last (n : nat) (s : str) : str := take (length s - n) s.

(** [sep.join(parts)] *)
Fixpoint join (sep : str) (parts : list str) : str :=
  match parts with
  | [] => []
  | [x] => x
  | x :: rest => x ++ sep ++ join sep rest
  end.

(** [x in l] for a list of strings. *)
Definition str_in (x : str) (l : list str) : bool :=
  existsb (fun y => bool_decide (x = y)) l.

(** ** [os.path] (the POSIX flavour) *)

Definition sep_char : N := 47%N.   (* "/" *)
Definition dot_char : N := 46%N.   (* "." *)

(** [s.rfind(c)] for a one-character [c]: the index of the last occurrence,
    or [-1]. *)
Fixpoint rfind_from (c : N) (s : str) (i last : Z) : Z :=
  match s with
  | [] => last
  | x :: r => rfind_from c r (i + 1) (if N.eqb x c then i else last)
  end.

Definition rfind (c : N) (s : str) : Z := rfind_from c s 0 (-1).

(** [os.path.splitext(p)]: the extension starts at the last dot of the last
    path component, unless only dots precede it in that component. *)
Definition splitext (p : str) : str * str :=
  let sepIndex := rfind sep_char p in
  let dotIndex := rfind dot_char p in
  if sepIndex <? dotIndex then
    let stem := drop (Z.to_nat (sepIndex + 1)) (take (Z.to_nat dotIndex) p) in
    if forallb (fun c => N.eqb c dot_char) stem then (p, [])
    else (take (Z.to_nat dotIndex) p, drop (Z.to_nat dotIndex) p)
  else (p, []).

(** [os.path.join(a, b)] *)
Definition path_join (a b : str) : str :=
  if startswith b [sep_char] then b
  else if (bool_decide (a = []) || endswith a [sep_char])%bool then a ++ b
  else a ++ [sep_char] ++ b.

(** ** Python values, exceptions and results *)

(** The values [json.loads] can return and the dict literals of the source.
    A float is kept as its IEEE-754 bit pattern; the service never looks
    inside one. *)
Inductive pyobj :=
| PNone
| PBool (b : bool)
| PInt (z : Z)
| PFloat (bits : N)
| PStr (s : str)
| PList (l : list pyobj)
| PDict (d : list (str * pyobj)).

(** [d.get(k)] on an association list. *)
Fixpoint assoc (k : str) (d : list (str * pyobj)) : option pyobj :=
  match d with
  | [] => None
  | (k', v) :: r => if bool_decide (k = k') then Some v else assoc k r
  end.

Definition dict_get (k : str) (o : pyobj) : option pyobj :=
  match o with
  | PDict d => assoc k d
  | _ => None
  end.

(** The exceptions that occur (all are subclasses of [Exception]).
    [LibraryError] stands for any other exception class a library raises. *)
Inductive exn :=
| JSONDecodeError (msg : str)
| ValueError (msg : str)
| AttributeError (msg : str)
| UnboundLocalError (msg : str)
| FileNotFoundError (msg : str)
| OSError (msg : str)
| HTTPException (status_code : Z) (detail : str)
| LibraryError (cls : str) (msg : str).

Inductive result (A : Type) :=
| Ok (a : A)
| Raise (e : exn).
Arguments Ok {A} a.
Arguments Raise {A} e.

(** ** The libraries and services outside the repository *)

(** The arguments of [client.chat.completions.create]. *)
Record completion_request := {
  messages : list (str * str);    (* role, content *)
  model : str;
  temperature : Q;
  max_tokens : Z
}.

Record Env := {
  (** [s.lower()] *)
  str_lower : str -> str;
  str_lower_nil : str_lower [] = [];
  (** [json.loads(s)]; it raises [JSONDecodeError] on text that is not JSON *)
  json_loads : str -> result pyobj;
  (** [page.extract_text()] for the pages of [PyPDF2.PdfReader(file)] *)
  pdf_page_texts : bytes -> result (list str);
  (** [paragraph.text] for the paragraphs of [docx.Document(path)] *)
  docx_paragraph_texts : bytes -> result (list str);
  (** [f.read()] on a file opened in text mode with [encoding='utf-8'] *)
  read_text_utf8 : bytes -> result str;
  (** [str(e)] for [e = HTTPException(status_code, detail)] *)
  http_exception_str : Z -> str -> str;
  (** [client.chat.completions.create(...).choices[0].message.content]: the
      call raises, or yields the content, which may be [None] *)
  chat_completions_create : completion_request -> result (option str);
  (** whether the [with open(path, "wb")] block that stores an upload
      completes: the file is opened, the upload read and written *)
  open_wb_ok : str -> bool;
  (** when that block fails: [None] if [open] itself failed and nothing
      was created, [Some b] if the file was created and the read or the
      write failed afterwards, leaving the bytes [b] in it *)
  interrupted_store : str -> option bytes
}.

(** [str(e)] *)
Definition exn_str (E : Env) (e : exn) : str :=
  match e with
  | JSONDecodeError m | ValueError m | AttributeError m
  | UnboundLocalError m | FileNotFoundError m | OSError m
  | LibraryError _ m => m
  | HTTPException s d => http_exception_str E s d
  end.

(** ** The state of a request and the monad of effects *)

Inductive event :=
| EvWrite (path : str)                    (* a file was created or overwritten *)
| EvRemove (path : str)                   (* [os.remove] *)
| EvCompletion (req : completion_request). (* the remote completion call *)

Record world := {
  files : gmap str bytes;     (* the regular files, by path *)
  trace : list event          (* the effects so far, oldest first *)
}.

Definition M (A : Type) : Type := world -> result A * world.

Definition ret {A} (a : A) : M A := fun w => (Ok a, w).

Definition raise {A} (e : exn) : M A := fun w => (Raise e, w).

Definition bind {A B} (m : M A) (k : A -> M B) : M B :=
  fun w =>
    match m w with
    | (Ok a, w') => k a w'
    | (Raise e, w') => (Raise e, w')
    end.

Declare Scope py_scope.
Delimit Scope py_scope with py_m.
Notation "x <- c ;; k" := (bind c (fun x => k))
  (at level 100, c at next level, right associativity) : py_scope.
Notation "c ;;; k" := (bind c (fun _ => k))
  (at level 100, right associativity) : py_scope.
Local Open Scope py_scope.

Definition lift {A} (r : result A) : M A := fun w => (r, w).

(** [try: body / except Exception as e: handler e] *)
Definition try_except {A} (body : M A) (handler : exn -> M A) : M A :=
  fun w =>
    match body w with
    | (Ok a, w') => (Ok a, w')
    | (Raise e, w') => handler e w'
    end.

(** [try: x = rhs; rest x / except ... as e: handler bound e], for a handler
    that reads the local variable [x]: [bound] tells whether the assignment
    was reached. *)
Definition try_except_local {A B} (rhs : M A) (rest : A -> M B)
    (handler : bool -> exn -> M B) : M B :=
  fun w =>
    match rhs w with
    | (Raise e, w1) => handler false e w1
    | (Ok x, w1) =>
        match rest x w1 with
        | (Ok b, w2) => (Ok b, w2)
        | (Raise e, w2) => handler true e w2
        end
    end.

(** [try: body / finally: cleanup]: the cleanup runs on every exit of the
    body; an exception of the cleanup replaces the body's outcome. *)
Definition try_finally {A} (body : M A) (cleanup : M unit) : M A :=
  fun w =>
    let (r, w1) := body w in
    match cleanup w1 with
    | (Ok _, w2) => (r, w2)
    | (Raise e, w2) => (Raise e, w2)
    end.

Definition log (ev : event) (w : world) : world :=
  {| files := files w; trace := trace w ++ [ev] |}.

(** [with open(path, "wb") as f: content = await file.read();
    f.write(content)].  The write is recorded in the trace when the block
    completes.  When it fails the exception leaves the endpoint, and the
    file is there or not according to where the failure struck. *)
Definition write_file (E : Env) (path : str) (content : bytes) : M unit :=
  fun w =>
    if open_wb_ok E path then
      (Ok tt, log (EvWrite path)
                {| files := <[path := content]> (files w); trace := trace w |})
    else
      match interrupted_store E path with
      | None => (Raise (OSError path), w)
      | Some remains =>
          (Raise (OSError path),
           {| files := <[path := remains]> (files w); trace := trace w |})
      end.

(** Opening an existing file for reading and taking its bytes. *)
Definition read_file (path : str) : M bytes :=
  fun w =>
    match files w !! path with
    | Some b => (Ok b, w)
    | None => (Raise (FileNotFoundError path), w)
    end.

(** [docx.Document(path)] opens the package itself: where there is no file
    it raises [PackageNotFoundError]. *)
Definition open_docx (path : str) : M bytes :=
  fun w =>
    match files w !! path with
    | Some b => (Ok b, w)
    | None =>
        (Raise (LibraryError (py "PackageNotFoundError")
                  (py "Package not found at '" ++ path ++ py "'")), w)
    end.

(** [os.path.exists(path)] *)
Definition path_exists (path : str) : M bool :=
  fun w => (Ok (bool_decide (is_Some (files w !! path))), w).

(** [os.remove(path)] *)
Definition os_remove (path : str) : M unit :=
  fun w =>
    match files w !! path with
    | Some _ =>
        (Ok tt, log (EvRemove path)
                  {| files := delete path (files w); trace := trace w |})
    | None => (Raise (FileNotFoundError path), w)
    end.

(** The remote call, recorded in the trace. *)
Definition create_completion (E : Env) (req : completion_request)
  : M (option str) :=
  fun w => (chat_completions_create E req, log (EvCompletion req) w).

(** ** The helper functions of [main.py] *)

Definition UPLOAD_DIR : str := py "uploads".

Section Service.

Variable E : Env.

(** [extract_text_from_pdf]: the page texts, concatenated in page order. *)
Definition extract_text_from_pdf (file_path : str) : M str :=
  file <- read_file file_path ;;
  pages <- lift (pdf_page_texts E file) ;;
  ret (fold_left (fun text page => text ++ page) pages []).

(** [extract_text_from_docx]: the paragraph texts, joined by newlines. *)
Definition extract_text_from_docx (file_path : str) : M str :=
  doc <- open_docx file_path ;;
  paragraphs <- lift (docx_paragraph_texts E doc) ;;
  ret (join nl paragraphs).

(** [extract_text_from_file] *)
Definition extract_text_from_file (file_path filename : str) : M str :=
  if endswith filename (py ".pdf") then
    extract_text_from_pdf file_path
  else if endswith filename (py ".docx") then
    extract_text_from_docx file_path
  else if endswith filename (py ".txt") then
    f <- read_file file_path ;;
    lift (read_text_utf8 E f)
  else
    raise (ValueError (py "Unsupported file type")).

(** The clean-up of a response before [json.loads] (lines 104-111, and the
    same statements in the two other functions). *)
Definition clean_response (response_text : str) : str :=
  let response_text := strip response_text in
  let response_text :=
    if startswith response_text (py "```json") then drop 7 response_text
    else response_text in
  let response_text :=
    if startswith response_text (py "```") then drop 3 response_text
    else response_text in
  let response_text :=
    if endswith response_text (py "```") then drop_last 3 response_text
    else response_text in
  strip response_text.

(** [None.strip()] *)
Definition none_has_no_strip : exn :=
  AttributeError (py "'NoneType' object has no attribute 'strip'").

(** Reading a local variable that no assignment has reached. *)
Definition unbound_local (name : string) : exn :=
  UnboundLocalError
    (py "cannot access local variable '" ++ py name
     ++ py "' where it is not associated with a value").

Definition user_message (prompt : str) : list (str * str) :=
  [(py "user", prompt)].

Definition MODEL : str := py "llama-3.3-70b-versatile".

Definition analysis_prompt (resume_text : str) : str :=
  join nl [
    lit "You are an expert resume reviewer and career coach. Analyze this resume and provide detailed feedback.";
    [];
    lit "Resume Content:";
    resume_text;
    [];
    lit "Provide your analysis in the following JSON format (respond ONLY with valid JSON, no other text):";
    lit "{";
    lit "    ^overall_score^: <number between 1-10>,";
    lit "    ^strengths^: [^<strength 1>^, ^<strength 2>^, ^<strength 3>^],";
    lit "    ^weaknesses^: [^<weakness 1>^, ^<weakness 2>^, ^<weakness 3>^],";
    lit "    ^suggestions^: [^<suggestion 1>^, ^<suggestion 2>^, ^<suggestion 3>^, ^<suggestion 4>^, ^<suggestion 5>^],";
    lit "    ^keywords_missing^: [^<keyword 1>^, ^<keyword 2>^, ^<keyword 3>^],";
    lit "    ^formatting_feedback^: ^<brief comment on resume formatting and structure>^,";
    lit "    ^summary^: ^<2-3 sentence overall assessment>^";
    lit "}";
    [];
    lit "Be specific, actionable, and honest in your feedback. Respond with ONLY the JSON object, no markdown formatting."
  ].

(** The request of [analyze_resume_with_ai] (lines 89-99). *)
Definition analysis_request (resume_text : str) : completion_request :=
  let prompt := analysis_prompt resume_text in
  {| messages := user_message prompt; model := MODEL;
     temperature := 7 # 10; max_tokens := 2000 |}.

(** The fallback of [analyze_resume_with_ai] for a response that is not
    JSON (lines 121-129). *)
Definition analysis_fallback_json : pyobj :=
  PDict [
    (py "overall_score", PInt 7);
    (py "strengths", PList [PStr (py "Resume received and processed")]);
    (py "weaknesses", PList [PStr (py "Unable to perform detailed analysis")]);
    (py "suggestions", PList [PStr (py "Please try uploading again")]);
    (py "keywords_missing", PList []);
    (py "formatting_feedback", PStr (py "Standard formatting detected"));
    (py "summary",
      PStr (py "Your resume has been received. Please try the analysis again for detailed feedback."))
  ].

(** The fallback of [analyze_resume_with_ai] for any other exception
    (lines 132-140). *)
Definition analysis_fallback_error (e : exn) : pyobj :=
  PDict [
    (py "overall_score", PInt 5);
    (py "strengths", PList [PStr (py "Resume uploaded successfully")]);
    (py "weaknesses", PList [PStr (py "Analysis service temporarily unavailable")]);
    (py "suggestions", PList [PStr (py "Please try again in a moment")]);
    (py "keywords_missing", PList []);
    (py "formatting_feedback", PStr (py "Unable to analyze at this time"));
    (py "summary", PStr (py "Error occurred: " ++ take 100 (exn_str E e)))
  ].

(** [analyze_resume_with_ai].  The handler of [json.JSONDecodeError] prints
    [response_text], which is unbound when the exception comes from the
    client call itself. *)
Definition analyze_resume_with_ai (resume_text : str) : M pyobj :=
  try_except_local
    (create_completion E (analysis_request resume_text))
    (fun response_text =>
       match response_text with
       | None => raise none_has_no_strip
       | Some response_text =>
           let response_text := clean_response response_text in
           analysis <- lift (json_loads E response_text) ;;
           ret analysis
       end)
    (fun response_text_bound e =>
       match e with
       | JSONDecodeError _ =>
           if response_text_bound then ret analysis_fallback_json
           else raise (unbound_local "response_text")
       | _ => ret (analysis_fallback_error e)
       end).

Definition questions_prompt (resume_text : str) : str :=
  join nl [
    lit "You are an expert interviewer. Based on this resume, generate relevant interview questions.";
    [];
    lit "Resume Content:";
    resume_text;
    [];
    lit "Generate questions in the following JSON format (respond ONLY with valid JSON, no other text):";
    lit "{";
    lit "    ^technical_questions^: [^<question 1>^, ^<question 2>^, ^<question 3>^, ^<question 4>^, ^<question 5>^],";
    lit "    ^behavioral_questions^: [^<question 1>^, ^<question 2>^, ^<question 3>^, ^<question 4>^, ^<question 5>^],";
    lit "    ^situational_questions^: [^<question 1>^, ^<question 2>^, ^<question 3>^]";
    lit "}";
    [];
    lit "Make questions specific to their actual experience and skills mentioned in the resume. Respond with ONLY the JSON object."
  ].

Definition questions_fallback : pyobj :=
  PDict [
    (py "technical_questions", PList [
       PStr (py "Tell me about your technical skills and experience");
       PStr (py "Describe a challenging technical problem you solved");
       PStr (py "What technologies are you most comfortable with?");
       PStr (py "How do you stay updated with new technologies?");
       PStr (py "Explain a project you're proud of")]);
    (py "behavioral_questions", PList [
       PStr (py "Describe a time you worked on a team project");
       PStr (py "Tell me about a challenge you overcame");
       PStr (py "How do you handle tight deadlines?");
       PStr (py "Describe a time you had to learn something new quickly");
       PStr (py "Tell me about a mistake you made and what you learned")]);
    (py "situational_questions", PList [
       PStr (py "How would you handle conflicting priorities?");
       PStr (py "What would you do if you disagreed with your manager?");
       PStr (py "How would you approach a project with unclear requirements?")])
  ].

(** The body shared by the [try] blocks of [generate_interview_questions]
    and [evaluate_answer]: call, take the content, clean it, decode it. *)
Definition complete_and_decode (req : completion_request) : M pyobj :=
  content <- create_completion E req ;;
  match content with
  | None => raise none_has_no_strip
  | Some response_text =>
      let response_text := clean_response response_text in
      decoded <- lift (json_loads E response_text) ;;
      ret decoded
  end.

(** The request of [generate_interview_questions] (lines 161-171). *)
Definition questions_request (resume_text : str) : completion_request :=
  let prompt := questions_prompt resume_text in
  {| messages := user_message prompt; model := MODEL;
     temperature := 8 # 10; max_tokens := 2000 |}.

(** [generate_interview_questions] *)
Definition generate_interview_questions (resume_text : str) : M pyobj :=
  try_except
    (complete_and_decode (questions_request resume_text))
    (fun e => ret questions_fallback).

Definition evaluation_prompt (question answer : str) : str :=
  join nl [
    lit "You are an expert interviewer evaluating a candidate's answer.";
    [];
    lit "Question: " ++ question;
    lit "Candidate's Answer: " ++ answer;
    [];
    lit "Evaluate the answer and provide feedback in JSON format (respond ONLY with valid JSON):";
    lit "{";
    lit "    ^score^: <number between 1-10>,";
    lit "    ^feedback^: ^<detailed feedback on the answer>^,";
    lit "    ^suggestions^: [^<suggestion 1>^, ^<suggestion 2>^],";
    lit "    ^strong_points^: [^<strong point 1>^, ^<strong point 2>^]";
    lit "}";
    [];
    lit "Respond with ONLY the JSON object."
  ].

Definition evaluation_fallback : pyobj :=
  PDict [
    (py "score", PInt 6);
    (py "feedback",
      PStr (py "Thank you for your answer. Try to provide more specific examples and details."));
    (py "suggestions", PList [
       PStr (py "Include concrete examples from your experience");
       PStr (py "Structure your answer with a clear beginning, middle, and end")]);
    (py "strong_points", PList [PStr (py "You provided a response to the question")])
  ].

(** The request of [evaluate_answer] (lines 231-241). *)
Definition evaluation_request (question answer : str) : completion_request :=
  let prompt := evaluation_prompt question answer in
  {| messages := user_message prompt; model := MODEL;
     temperature := 7 # 10; max_tokens := 1500 |}.

(** [evaluate_answer] *)
Definition evaluate_answer (question answer : str) : M pyobj :=
  try_except
    (complete_and_decode (evaluation_request question answer))
    (fun e => ret evaluation_fallback).

(** ** The endpoints *)

Record UploadFile := {
  filename : str;
  content : bytes
}.

Definition allowed_extensions : list str := [py ".pdf"; py ".docx"; py ".txt"].

(** The [finally] block of the two upload endpoints. *)
Definition remove_if_exists (file_path : str) : M unit :=
  b <- path_exists file_path ;;
  if (b : bool) then os_remove file_path else ret tt.

(** [os.path.join(UPLOAD_DIR, file.filename)] *)
Definition upload_path (file : UploadFile) : str :=
  path_join UPLOAD_DIR (filename file).

(** [upload_resume] *)
Definition upload_resume (file : UploadFile) : M pyobj :=
  let file_ext := str_lower E (snd (splitext (filename file))) in
  if negb (str_in file_ext allowed_extensions) then
    raise (HTTPException 400
             (py "File type not supported. Please upload "
              ++ join (py ", ") allowed_extensions))
  else
    let file_path := upload_path file in
    write_file E file_path (content file) ;;;
    try_finally
      (try_except
         (resume_text <- extract_text_from_file file_path (filename file) ;;
          if (length (strip resume_text) <? 50)%nat then
            raise (HTTPException 400 (py "Resume appears to be empty or too short"))
          else
            analysis <- analyze_resume_with_ai resume_text ;;
            ret (PDict [
              (py "success", PBool true);
              (py "filename", PStr (filename file));
              (py "analysis", analysis);
              (py "resume_text", PStr (take 500 resume_text ++ py "..."))
            ]))
         (fun e =>
            raise (HTTPException 500 (py "Error processing resume: " ++ exn_str E e))))
      (remove_if_exists file_path).

(** [generate_questions] *)
Definition generate_questions (file : UploadFile) : M pyobj :=
  let file_path := upload_path file in
  write_file E file_path (content file) ;;;
  try_finally
    (try_except
       (resume_text <- extract_text_from_file file_path (filename file) ;;
        questions <- generate_interview_questions resume_text ;;
        ret (PDict [
          (py "success", PBool true);
          (py "questions", questions)
        ]))
       (fun e =>
          raise (HTTPException 500 (py "Error generating questions: " ++ exn_str E e))))
    (remove_if_exists file_path).

(** The request body of [evaluate_answer_endpoint]. *)
Record AnswerEvaluation := {
  question : str;
  answer : str
}.

(** [evaluate_answer_endpoint] *)
Definition evaluate_answer_endpoint (data : AnswerEvaluation) : M pyobj :=
  try_except
    (evaluation <- evaluate_answer (question data) (answer data) ;;
     ret (PDict [
       (py "success", PBool true);
       (py "evaluation", evaluation)
     ]))
    (fun e =>
       raise (HTTPException 500 (py "Error evaluating answer: " ++ exn_str E e))).

End Service.

(** ** What the web framework sends back *)

Record response := {
  status : Z;
  body : pyobj
}.

(** The response that the outcome of a handler calls for, before its
    content is rendered (see [sent]): status 200 for a returned dict, the
    status and the detail of an [HTTPException], a bare 500 for any other
    exception. *)
Definition respond (r : result pyobj) : response :=
  match r with
  | Ok v => {| status := 200; body := v |}
  | Raise (HTTPException s d) => {| status := s; body := PDict [(py "detail", PStr d)] |}
  | Raise _ => {| status := 500; body := PStr (py "Internal Server Error") |}
  end.

(** The response to a request, and the world after it. *)
Definition serve (handler : M pyobj) (w : world) : response * world :=
  let (r, w') := handler w in (respond r, w').

(** ** The clean-up as the specification words it

    "Strip a leading fenced-code marker if present (a language-tagged fence
    or a bare fence), and a trailing fence marker if present": one leading
    marker at most. *)
Definition strip_trailing_fence (t : str) : str :=
  if endswith t (py "```") then drop_last 3 t else t.

Definition spec_strip_fences (t : str) : str :=
  strip_trailing_fence
    (if startswith t (py "```json") then drop 7 t
     else if startswith t (py "```") then drop 3 t
     else t).

Definition spec_clean_response (response_text : str) : str :=
  strip (spec_strip_fences (strip response_text)).

(** ** A reference environment

    Concrete stand-ins for the libraries, used to run the service on
    examples: ASCII case mapping and decoding, a decoder for JSON documents
    made of objects, arrays, strings, integers and the three literals, and
    document parsers that reject every file.  The remote service is a
    parameter. *)
Module Ref.

Definition lower (s : str) : str :=
  List.map (fun c => if ((65 <=? c) && (c <=? 90))%N then (c + 32)%N else c) s.

Definition json_ws (c : N) : bool :=
  ((c =? 32) || (c =? 9) || (c =? 10) || (c =? 13))%N.

Fixpoint skip_ws (s : str) : str :=
  match s with
  | c :: r => if json_ws c then skip_ws r else s
  | [] => []
  end.

Definition is_digit (c : N) : bool := ((48 <=? c) && (c <=? 57))%N.

Fixpoint digits (s : str) (acc : Z) : Z * str :=
  match s with
  | c :: r =>
      if is_digit c then digits r (10 * acc + (Z.of_N c - 48)) else (acc, s)
  | [] => (acc, [])
  end.

(** An integer without sign: a lone zero, or digits that start with 1-9. *)
Definition natural (s : str) : option (Z * str) :=
  match s with
  | c :: r =>
      if (c =? 48)%N then Some (0, r)
      else if is_digit c then Some (digits s 0)
      else None
  | [] => None
  end.

(** The characters of a string after its opening quote, up to the closing
    one; the simple escapes are decoded. *)
Fixpoint string_body (s acc : str) : option (str * str) :=
  match s with
  | [] => None
  | c :: r =>
      if (c =? 34)%N then Some (rev acc, r)
      else if (c =? 92)%N then
        match r with
        | e :: r' =>
            if (e =? 34)%N || (e =? 92)%N || (e =? 47)%N
            then string_body r' (e :: acc)
            else if (e =? 110)%N then string_body r' (10%N :: acc)
            else if (e =? 116)%N then string_body r' (9%N :: acc)
            else if (e =? 114)%N then string_body r' (13%N :: acc)
            else None
        | [] => None
        end
      else if (c <? 32)%N then None
      else string_body r (c :: acc)
  end.

(** [d[k] = v] *)
Fixpoint dict_set (k : str) (v : pyobj) (d : list (str * pyobj))
  : list (str * pyobj) :=
  match d with
  | [] => [(k, v)]
  | (k', v') :: r =>
      if bool_decide (k = k') then (k, v) :: r else (k', v') :: dict_set k v r
  end.

Fixpoint value (fuel : nat) (s : str) : option (pyobj * str) :=
  match fuel with
  | O => None
  | S fuel =>
      match skip_ws s with
      | [] => None
      | c :: r =>
          if (c =? 123)%N then                       (* an object *)
            match skip_ws r with
            | c' :: r' =>
                if (c' =? 125)%N then Some (PDict [], r') else members fuel r []
            | [] => None
            end
          else if (c =? 91)%N then                   (* an array *)
            match skip_ws r with
            | c' :: r' =>
                if (c' =? 93)%N then Some (PList [], r') else elements fuel r []
            | [] => None
            end
          else if (c =? 34)%N then
            match string_body r [] with
            | Some (x, r') => Some (PStr x, r')
            | None => None
            end
          else if (c =? 45)%N then
            match natural r with
            | Some (z, r') => Some (PInt (- z), r')
            | None => None
            end
          else if startswith (c :: r) (py "true") then Some (PBool true, drop 4 (c :: r))
          else if startswith (c :: r) (py "false") then Some (PBool false, drop 5 (c :: r))
          else if startswith (c :: r) (py "null") then Some (PNone, drop 4 (c :: r))
          else
            match natural (c :: r) with
            | Some (z, r') => Some (PInt z, r')
            | None => None
            end
      end
  end
with members (fuel : nat) (s : str) (acc : list (str * pyobj))
  : option (pyobj * str) :=
  match fuel with
  | O => None
  | S fuel =>
      match skip_ws s with
      | c :: r =>
          if (c =? 34)%N then
            match string_body r [] with
            | Some (k, r1) =>
                match skip_ws r1 with
                | c1 :: r2 =>
                    if (c1 =? 58)%N then
                      match value fuel r2 with
                      | Some (v, r3) =>
                          match skip_ws r3 with
                          | c3 :: r4 =>
                              if (c3 =? 44)%N then members fuel r4 (dict_set k v acc)
                              else if (c3 =? 125)%N then Some (PDict (dict_set k v acc), r4)
                              else None
                          | [] => None
                          end
                      | None => None
                      end
                    else None
                | [] => None
                end
            | None => None
            end
          else None
      | [] => None
      end
  end
with elements (fuel : nat) (s : str) (acc : list pyobj)
  : option (pyobj * str) :=
  match fuel with
  | O => None
  | S fuel =>
      match value fuel s with
      | Some (v, r) =>
          match skip_ws r with
          | c :: r' =>
              if (c =? 44)%N then elements fuel r' (acc ++ [v])
              else if (c =? 93)%N then Some (PList (acc ++ [v]), r')
              else None
          | [] => None
          end
      | None => None
      end
  end.

Definition loads (s : str) : result pyobj :=
  match value (S (2 * length s)) s with
  | Some (v, r) =>
      match skip_ws r with
      | [] => Ok v
      | _ => Raise (JSONDecodeError (py "Extra data"))
      end
  | None => Raise (JSONDecodeError (py "Expecting value"))
  end.

Definition no_pdf (file : bytes) : result (list str) :=
  Raise (LibraryError (py "PdfReadError") (py "EOF marker not found")).

Definition no_docx (file : bytes) : result (list str) :=
  Raise (LibraryError (py "BadZipFile") (py "File is not a zip file")).

Definition is_plain (b : Byte.byte) : bool :=
  ((Byte.to_N b <? 128) && negb (Byte.to_N b =? 13))%N.

Definition read_text (file : bytes) : result str :=
  if forallb is_plain file then Ok (List.map Byte.to_N file)
  else Raise (LibraryError (py "UnicodeDecodeError") (py "invalid start byte")).

Definition decimal (z : Z) : str :=
  py (DecimalString.NilZero.string_of_int (Z.to_int z)).

Definition status_and_detail (status_code : Z) (detail : str) : str :=
  decimal status_code ++ py ": " ++ detail.

Definition names_a_file (path : str) : bool := negb (endswith path [sep_char]).

Definition env (remote : completion_request -> result (option str)) : Env :=
  {| str_lower := lower;
     str_lower_nil := eq_refl;
     json_loads := loads;
     pdf_page_texts := no_pdf;
     docx_paragraph_texts := no_docx;
     read_text_utf8 := read_text;
     http_exception_str := status_and_detail;
     chat_completions_create := remote;
     open_wb_ok := names_a_file;
     interrupted_store := fun _ => None |}.

(** The bytes of an ASCII literal. *)
Definition ascii_bytes (s : string) : bytes :=
  List.map Ascii.byte_of_ascii (list_ascii_of_string s).

Definition empty_world : world := {| files := ∅; trace := [] |}.

End Ref.


(** ** Vocabulary for the statements *)

(** The world once [write_file] has stored the upload. *)
Definition stored (file : UploadFile) (w : world) : world :=
  log (EvWrite (upload_path file))
    {| files := <[upload_path file := content file]> (files w);
       trace := trace w |}.

(** The world once [os.remove] has deleted [path]. *)
Definition removed (path : str) (w : world) : world :=
  log (EvRemove path) {| files := delete path (files w); trace := trace w |}.

(** The text [extract_text_from_file] yields for a stored upload. *)
Definition extracted (E : Env) (file : UploadFile) (w : world) : result str :=
  fst (extract_text_from_file E (upload_path file) (filename file) (stored file w)).

(** The events a request added to the trace. *)
Definition new_events (w w' : world) : list event :=
  drop (length (trace w)) (trace w').

Definition is_completion (ev : event) : bool :=
  match ev with
  | EvCompletion _ => true
  | _ => false
  end.

Definition is_json_error (e : exn) : bool :=
  match e with
  | JSONDecodeError _ => true
  | _ => false
  end.

(** The body of an error response. *)
Definition detail_body (detail : str) : pyobj :=
  PDict [(py "detail", PStr detail)].

(** The success envelope of [upload_resume] (lines 316-321). *)
Definition resume_envelope (file : UploadFile) (analysis : pyobj)
    (resume_text : str) : pyobj :=
  PDict [
    (py "success", PBool true);
    (py "filename", PStr (filename file));
    (py "analysis", analysis);
    (py "resume_text", PStr (take 500 resume_text ++ py "..."))
  ].

(** [needle in hay] for strings. *)
Fixpoint contains (hay needle : str) : bool :=
  startswith hay needle
  || match hay with
     | [] => false
     | _ :: rest => contains rest needle
     end.

(** Every string inside a value: the keys and the string leaves. *)
Fixpoint strings_of (o : pyobj) : list str :=
  match o with
  | PStr s => [s]
  | PList l => flat_map strings_of l
  | PDict d => flat_map (fun kv => fst kv :: strings_of (snd kv)) d
  | _ => []
  end.

(** Whether some string of the value contains [needle]. *)
Definition mentions (o : pyobj) (needle : str) : bool :=
  existsb (fun s => contains s needle) (strings_of o).

(** The three shapes of the world after a request to an upload endpoint. *)
Inductive scratch_outcome (path : str) (w w' : world) : Prop :=
| NothingWritten : w' = w -> scratch_outcome path w w'
| StoreInterrupted (remains : bytes) :
    files w' = <[path := remains]> (files w) ->
    trace w' = trace w ->
    scratch_outcome path w w'
| WrittenAndRemoved (between : list event) :
    files w' = delete path (files w) ->
    trace w' = trace w ++ EvWrite path :: between ++ [EvRemove path] ->
    forallb is_completion between = true ->
    scratch_outcome path w w'.


(** ** Example requests *)
Module Examples.

(** A remote service that is unreachable. *)
Definition connection_error : exn :=
  LibraryError (py "APIConnectionError") (py "Connection error.").

Definition unreachable : Env := Ref.env (fun _ => Raise connection_error).

(** A remote service that answers every request with [response_text]. *)
Definition answering (response_text : str) : Env :=
  Ref.env (fun _ => Ok (Some response_text)).

(** The fenced response of the specification's example. *)
Definition fenced_response : str :=
  py "```json" ++ nl ++ lit "{^a^:1}" ++ nl ++ py "```".


(** A response with two leading markers. *)
Definition double_fenced_response : str := lit "```json```{^a^:1}```".

(** A ten-character text file. *)
Definition short_txt : UploadFile :=
  {| filename := py "short.txt"; content := Ref.ascii_bytes "0123456789" |}.

(** A text file of 72 characters. *)
Definition resume_txt : UploadFile :=
  {| filename := py "cv.txt";
     content := Ref.ascii_bytes
       "Jane Doe - Software engineer, ten years of Python, Go and Rust services." |}.

Definition resume_text : str :=
  py "Jane Doe - Software engineer, ten years of Python, Go and Rust services.".

Definition xyz_file : UploadFile :=
  {| filename := py "cv.xyz"; content := Ref.ascii_bytes "anything" |}.

Definition upper_pdf : UploadFile :=
  {| filename := py "cv.PDF"; content := Ref.ascii_bytes "%PDF-1.4" |}.

End Examples.

(** ** The remaining endpoint and the routes *)

(** [read_root], the health check. *)
Definition read_root : M pyobj :=
  ret (PDict [
    (py "status", PStr (py "Resume Analyzer API is running!"));
    (py "version", PStr (py "3.0 - Groq Powered (Free & Fast)"))
  ]).

(** The four routes registered on [app]. *)
Inductive request :=
| GetRoot                                        (* GET / *)
| PostUploadResume (file : UploadFile)           (* POST /api/upload-resume *)
| PostGenerateQuestions (file : UploadFile)      (* POST /api/generate-questions *)
| PostEvaluateAnswer (data : AnswerEvaluation).  (* POST /api/evaluate-answer *)

Definition route (E : Env) (req : request) : M pyobj :=
  match req with
  | GetRoot => read_root
  | PostUploadResume file => upload_resume E file
  | PostGenerateQuestions file => generate_questions E file
  | PostEvaluateAnswer data => evaluate_answer_endpoint E data
  end.

(** ** More vocabulary *)

(** [s.split(c)] for a one-character separator. *)
Fixpoint split_on (c : N) (s : str) : list str :=
  match s with
  | [] => [[]]
  | x :: r =>
      if N.eqb x c then [] :: split_on c r
      else match split_on c r with
           | first :: rest => (x :: first) :: rest
           | [] => [[x]]
           end
  end.

(** The length of the list stored under a key of a dict. *)
Definition list_length_at (k : str) (o : pyobj) : option nat :=
  match dict_get k o with
  | Some (PList l) => Some (length l)
  | _ => None
  end.

(** The completion calls among the events of a request. *)
Definition completions (w w' : world) : list event :=
  List.filter is_completion (new_events w w').

(** Whether the dispatcher of [extract_text_from_file] knows the name. *)
Definition has_supported_suffix (name : str) : bool :=
  endswith name (py ".pdf") || endswith name (py ".docx")
  || endswith name (py ".txt").

(** An environment with other document parsers and another remote service. *)
Definition with_services (E : Env)
    (pdf docx : bytes -> result (list str))
    (remote : completion_request -> result (option str)) : Env :=
  {| str_lower := str_lower E;
     str_lower_nil := str_lower_nil E;
     json_loads := json_loads E;
     pdf_page_texts := pdf;
     docx_paragraph_texts := docx;
     read_text_utf8 := read_text_utf8 E;
     http_exception_str := http_exception_str E;
     chat_completions_create := remote;
     open_wb_ok := open_wb_ok E;
     interrupted_store := interrupted_store E |}.

(** An environment with another decoder and another remote service. *)
Definition with_decoder (E : Env) (loads : str -> result pyobj)
    (remote : completion_request -> result (option str)) : Env :=
  {| str_lower := str_lower E;
     str_lower_nil := str_lower_nil E;
     json_loads := loads;
     pdf_page_texts := pdf_page_texts E;
     docx_paragraph_texts := docx_paragraph_texts E;
     read_text_utf8 := read_text_utf8 E;
     http_exception_str := http_exception_str E;
     chat_completions_create := remote;
     open_wb_ok := open_wb_ok E;
     interrupted_store := interrupted_store E |}.

(** An environment in which every store of an upload fails, leaving
    [remains] behind. *)
Definition with_failing_store (E : Env) (remains : option bytes) : Env :=
  {| str_lower := str_lower E;
     str_lower_nil := str_lower_nil E;
     json_loads := json_loads E;
     pdf_page_texts := pdf_page_texts E;
     docx_paragraph_texts := docx_paragraph_texts E;
     read_text_utf8 := read_text_utf8 E;
     http_exception_str := http_exception_str E;
     chat_completions_create := chat_completions_create E;
     open_wb_ok := fun _ => false;
     interrupted_store := fun _ => remains |}.

(** ** Rendering the response

    FastAPI sends a returned dict, and the detail of an [HTTPException],
    through [json.dumps(content, allow_nan=False, ensure_ascii=False)
    .encode("utf-8")]. *)

(** A code point that UTF-8 cannot encode. *)
Definition is_surrogate (c : N) : bool := ((55296 <=? c) && (c <=? 57343))%N.

Definition encodable (s : str) : bool :=
  forallb (fun c => negb (is_surrogate c)) s.

(** A float that [allow_nan=False] accepts: its exponent bits are not all
    ones, so it is neither an infinity nor a NaN. *)
Definition finite_float (bits : N) : bool :=
  negb (N.land (N.shiftr bits 52) 2047 =? 2047)%N.

(** The values that the rendering accepts. *)
Fixpoint json_compliant (o : pyobj) : bool :=
  match o with
  | PNone | PBool _ | PInt _ => true
  | PFloat bits => finite_float bits
  | PStr s => encodable s
  | PList l => forallb json_compliant l
  | PDict d => forallb (fun kv => encodable (fst kv) && json_compliant (snd kv)) d
  end.

(** What the server sends when the rendering raises. *)
Definition internal_server_error : response :=
  {| status := 500; body := PStr (py "Internal Server Error") |}.

(** The response that leaves the server. *)
Definition sent (r : response) : response :=
  if json_compliant (body r) then r else internal_server_error.

(** Requests served one after the other, with the responses as sent. *)
Fixpoint serve_all (E : Env) (reqs : list request) (w : world)
  : list response * world :=
  match reqs with
  | [] => ([], w)
  | req :: rest =>
      let (r, w1) := serve (route E req) w in
      let (rs, w2) := serve_all E rest w1 in
      (sent r :: rs, w2)
  end.

(** The world after a failed store of the upload. *)
Definition store_failed (E : Env) (file : UploadFile) (w : world) : world :=
  match interrupted_store E (upload_path file) with
  | None => w
  | Some remains =>
      {| files := <[upload_path file := remains]> (files w); trace := trace w |}
  end.

(** No store of the request fails after its file was created. *)
Definition store_uninterrupted (E : Env) (req : request) : bool :=
  match req with
  | PostUploadResume file | PostGenerateQuestions file =>
      match interrupted_store E (upload_path file) with
      | None => true
      | Some _ => open_wb_ok E (upload_path file)
      end
  | GetRoot | PostEvaluateAnswer _ => true
  end.

(** The two leading tests of the clean-up (lines 105-108). *)
Definition strip_leading_fences (t : str) : str :=
  let t1 := if startswith t (py "```json") then drop 7 t else t in
  if startswith t1 (py "```") then drop 3 t1 else t1.

(** [x] is a contiguous part of [s]. *)
Definition part_of (x s : str) : Prop := exists a b, s = a ++ x ++ b.

(** ** More example requests *)
Module Scenarios.

(** Document parsers that find two pages and three paragraphs in every
    file, with an unreachable remote service. *)
Definition two_pages : list str := [py "Page one. "; py "Page two."].

Definition three_paragraphs : list str :=
  [py "Jane Doe"; py ""; py "Engineer"].

Definition parsing : Env :=
  with_services Examples.unreachable
    (fun _ => Ok two_pages) (fun _ => Ok three_paragraphs)
    (fun _ => Raise Examples.connection_error).

(** A client that fails while decoding the reply of the remote service. *)
Definition undecodable_reply : Env :=
  Ref.env (fun _ => Raise (JSONDecodeError (py "Expecting value: line 1 column 1 (char 0)"))).

(** A remote service whose message has no content. *)
Definition silent : Env := Ref.env (fun _ => Ok None).

(** A reply that [json.loads] accepts and decodes to a NaN. *)
Definition nan_reply : str := lit "{^score^: NaN}".

Definition nan_bits : N := 9221120237041090560%N.   (* 0x7FF8000000000000 *)

(** The reference decoder, extended to that reply. *)
Definition loads_nan (s : str) : result pyobj :=
  if bool_decide (s = nan_reply) then Ok (PDict [(py "score", PFloat nan_bits)])
  else Ref.loads s.

(** A remote service that answers every request with that reply. *)
Definition nan_scoring : Env :=
  with_decoder Examples.unreachable loads_nan (fun _ => Ok (Some nan_reply)).

(** A server whose disk is full: every upload is created and left empty. *)
Definition disk_full : Env := with_failing_store Examples.unreachable (Some []).

Definition cv_pdf : UploadFile :=
  {| filename := py "cv.pdf"; content := Ref.ascii_bytes "%PDF-1.4" |}.

Definition cv_docx : UploadFile :=
  {| filename := py "cv.docx"; content := Ref.ascii_bytes "PK" |}.

Definition empty_txt : UploadFile :=
  {| filename := py "empty.txt"; content := [] |}.

Definition absolute_txt : UploadFile :=
  {| filename := py "/etc/motd.txt"; content := Ref.ascii_bytes "hello" |}.

(** A world in which two files exist already. *)
Definition occupied : world :=
  {| files := <[py "uploads/cv.txt" := Ref.ascii_bytes "an older upload"]>
                (<[py "/etc/motd.txt" := Ref.ascii_bytes "welcome"]> ∅);
     trace := [] |}.

Definition why_go : AnswerEvaluation :=
  {| question := py "Why Go?"; answer := py "Because I like it." |}.

Definition mixed_requests : list request :=
  [ PostUploadResume Examples.resume_txt;
    GetRoot;
    PostGenerateQuestions Examples.resume_txt;
    PostUploadResume Examples.xyz_file;
    PostEvaluateAnswer why_go;
    PostGenerateQuestions Examples.upper_pdf;
    PostUploadResume Examples.short_txt ].

End Scenarios.

(** * Properties *)

(** ** Strings and paths *)

Example splitext_last_dot :
  splitext (py "cv.final.PDF") = (py "cv.final", py ".PDF").
Proof. reflexivity. Qed.

Example splitext_leading_dot : splitext (py ".pdf") = (py ".pdf", []).
Proof. reflexivity. Qed.

Example splitext_dot_in_directory : splitext (py "a.b/c") = (py "a.b/c", []).
Proof. reflexivity. Qed.

Example strip_both_ends : strip (py "  a b  " ++ nl) = py "a b".
Proof. reflexivity. Qed.

Example join_allowed_extensions :
  join (py ", ") allowed_extensions = py ".pdf, .docx, .txt".
Proof. reflexivity. Qed.

Example upload_path_relative :
  path_join UPLOAD_DIR (py "cv.txt") = py "uploads/cv.txt".
Proof. reflexivity. Qed.

Example upload_path_absolute :
  path_join UPLOAD_DIR (py "/tmp/cv.txt") = py "/tmp/cv.txt".
Proof. reflexivity. Qed.

Example clean_bare_fence :
  clean_response (py "```" ++ nl ++ lit "[1, 2]" ++ nl ++ py "```" ++ nl)
  = py "[1, 2]".
Proof. reflexivity. Qed.

Example clean_without_fence :
  clean_response (lit " {^score^: 8} ") = lit "{^score^: 8}".
Proof. reflexivity. Qed.

Lemma startswith_app (s p : str) :
  startswith s p = true <-> exists r, s = p ++ r.
Proof.
  revert s; induction p as [|a p IH]; intros s; simpl.
  - split; [intros _; exists s; reflexivity | reflexivity].
  - destruct s as [|b s].
    + split; [discriminate | intros [r Hr]; discriminate].
    + rewrite andb_true_iff, N.eqb_eq, IH. split.
      * intros [-> [r ->]]. exists r; reflexivity.
      * intros [r Hr]. injection Hr as -> ->. split; [reflexivity | exists r; reflexivity].
Qed.

Lemma endswith_app (s p : str) :
  endswith s p = true <-> exists q, s = q ++ p.
Proof.
  unfold endswith. rewrite startswith_app. split.
  - intros [r Hr]. exists (rev r).
    rewrite <- (rev_involutive s), Hr, rev_app_distr, rev_involutive.
    reflexivity.
  - intros [q ->]. exists (rev q). apply rev_app_distr.
Qed.

Lemma rfind_from_app (c : N) (q r : str) (i last : Z) :
  rfind_from c (q ++ r) i last
  = rfind_from c r (i + Z.of_nat (length q)) (rfind_from c q i last).
Proof.
  revert i last; induction q as [|x q IH]; intros i last; simpl.
  - f_equal; lia.
  - rewrite IH. f_equal. lia.
Qed.

Lemma rfind_from_absent (c : N) (s : str) (i last : Z) :
  ~ In c s -> rfind_from c s i last = last.
Proof.
  revert i last; induction s as [|x s IH]; intros i last Hc; simpl; [reflexivity|].
  destruct (N.eqb_spec x c) as [->|_].
  - exfalso; apply Hc; left; reflexivity.
  - apply IH. intros H; apply Hc; right; exact H.
Qed.

Lemma rfind_from_bound (c : N) (s : str) (i last : Z) :
  last < i -> rfind_from c s i last < i + Z.of_nat (length s).
Proof.
  revert i last; induction s as [|x s IH]; intros i last Hl; simpl length.
  - simpl. lia.
  - simpl rfind_from. specialize (IH (i + 1) (if N.eqb x c then i else last)).
    destruct (N.eqb x c); lia.
Qed.

Lemma rfind_last (c : N) (q t : str) :
  ~ In c t -> rfind c (q ++ c :: t) = Z.of_nat (length q).
Proof.
  intros Hc. unfold rfind. rewrite rfind_from_app. simpl.
  rewrite N.eqb_refl. rewrite rfind_from_absent by assumption. lia.
Qed.

Lemma rfind_before (c d : N) (q t : str) :
  c <> d -> ~ In c t ->
  rfind c (q ++ d :: t) = rfind c q /\ rfind c q < Z.of_nat (length q).
Proof.
  intros Hcd Hc. unfold rfind. rewrite rfind_from_app. simpl.
  destruct (N.eqb_spec d c) as [->|_]; [contradiction|].
  rewrite rfind_from_absent by assumption. split; [reflexivity|].
  pose proof (rfind_from_bound c q 0 (-1)). lia.
Qed.

(** A name that ends with an extension [.t] (no dot and no slash in [t])
    has that extension, or none when only dots precede it. *)
Lemma splitext_of_suffix (name t : str) :
  ~ In dot_char t -> ~ In sep_char t ->
  endswith name (dot_char :: t) = true ->
  snd (splitext name) = dot_char :: t \/ snd (splitext name) = [].
Proof.
  intros Hdot Hsep Hend. apply endswith_app in Hend as [q ->].
  unfold splitext.
  rewrite (rfind_last dot_char q t Hdot).
  destruct (rfind_before sep_char dot_char q t) as [-> Hlt];
    [discriminate | assumption |].
  destruct (Z.ltb_spec (rfind sep_char q) (Z.of_nat (length q))); [|lia].
  rewrite Nat2Z.id.
  destruct (forallb _ _); [right; reflexivity | left].
  simpl. rewrite drop_app_length. reflexivity.
Qed.

Lemma str_in_allowed (x : str) :
  str_in x allowed_extensions = true <->
  x = py ".pdf" \/ x = py ".docx" \/ x = py ".txt".
Proof.
  unfold str_in, allowed_extensions. simpl existsb.
  rewrite !orb_true_iff, !bool_decide_eq_true. intuition discriminate.
Qed.

(** The dispatcher of [extract_text_from_file] accepts a name only if the
    extension [os.path.splitext] finds is an allowed one, or is empty. *)
Lemma dispatch_suffix_allowed (name : str) :
  endswith name (py ".pdf") = true \/ endswith name (py ".docx") = true
  \/ endswith name (py ".txt") = true ->
  str_in (snd (splitext name)) allowed_extensions = true
  \/ snd (splitext name) = [].
Proof.
  intros H.
  assert (forall t, In t [py "pdf"; py "docx"; py "txt"] ->
                    ~ In dot_char t /\ ~ In sep_char t) as Hclean.
  { intros t Ht. simpl in Ht.
    destruct Ht as [<-|[<-|[<-|[]]]]; split; simpl; intuition discriminate. }
  destruct H as [H|[H|H]];
    (apply splitext_of_suffix in H;
     [destruct H as [H|H]; [left; rewrite H; reflexivity | right; exact H]
     | apply Hclean; simpl; tauto | apply Hclean; simpl; tauto ]).
Qed.

(** ** How the helper functions run *)

Ltac run_monad :=
  unfold bind, ret, raise, lift, try_except, try_except_local, try_finally.

Ltac split_match :=
  repeat (match goal with
          | |- context [match ?x with _ => _ end] =>
              lazymatch x with
              | context [match _ with _ => _ end] => fail
              | _ => destruct x eqn:?
              end
          end; simpl);
  try reflexivity.

Section Runs.

Variable E : Env.

(** Extraction only reads. *)
Lemma extract_text_from_file_world (p n : str) (w : world) :
  snd (extract_text_from_file E p n w) = w.
Proof.
  unfold extract_text_from_file, extract_text_from_pdf, extract_text_from_docx,
    read_file, open_docx.
  run_monad. split_match.
Qed.

Lemma extract_stored (file : UploadFile) (w : world) :
  extract_text_from_file E (upload_path file) (filename file) (stored file w)
  = (extracted E file w, stored file w).
Proof.
  unfold extracted.
  rewrite <- (extract_text_from_file_world (upload_path file) (filename file)
                (stored file w)) at 3.
  apply surjective_pairing.
Qed.

Lemma remove_if_exists_present (p : str) (w : world) :
  is_Some (files w !! p) -> remove_if_exists p w = (Ok tt, removed p w).
Proof.
  intros Hp. unfold remove_if_exists, path_exists, os_remove. run_monad.
  rewrite bool_decide_eq_true_2 by assumption.
  destruct Hp as [c ->]. reflexivity.
Qed.

Lemma remove_if_exists_absent (p : str) (w : world) :
  files w !! p = None -> remove_if_exists p w = (Ok tt, w).
Proof.
  intros Hp. unfold remove_if_exists, path_exists. run_monad.
  rewrite bool_decide_eq_false_2; [reflexivity|].
  rewrite Hp. intros [x Hx]; discriminate.
Qed.

Lemma stored_has_file (file : UploadFile) (w : world) :
  files (stored file w) !! upload_path file = Some (content file).
Proof. simpl. apply lookup_insert_eq. Qed.

(** The remote call adds one event and leaves the files alone. *)
Lemma analyze_resume_with_ai_world (text : str) (w : world) :
  snd (analyze_resume_with_ai E text w)
  = log (EvCompletion (analysis_request text)) w.
Proof.
  unfold analyze_resume_with_ai, create_completion. run_monad. split_match.
Qed.

Lemma complete_and_decode_world (req : completion_request) (w : world) :
  snd (complete_and_decode E req w) = log (EvCompletion req) w.
Proof.
  unfold complete_and_decode, create_completion. run_monad. split_match.
Qed.

(** The result of [complete_and_decode], by cases on what the client and the
    decoder do. *)
Lemma complete_and_decode_result (req : completion_request) (w : world) :
  fst (complete_and_decode E req w)
  = match chat_completions_create E req with
    | Raise e => Raise e
    | Ok None => Raise none_has_no_strip
    | Ok (Some response_text) => json_loads E (clean_response response_text)
    end.
Proof.
  unfold complete_and_decode, create_completion. run_monad. split_match.
Qed.

(** The result of [analyze_resume_with_ai], by the same cases. *)
Lemma analyze_resume_with_ai_result (text : str) (w : world) :
  fst (analyze_resume_with_ai E text w)
  = match chat_completions_create E (analysis_request text) with
    | Raise e =>
        if is_json_error e then Raise (unbound_local "response_text")
        else Ok (analysis_fallback_error E e)
    | Ok None => Ok (analysis_fallback_error E none_has_no_strip)
    | Ok (Some response_text) =>
        match json_loads E (clean_response response_text) with
        | Ok analysis => Ok analysis
        | Raise e =>
            if is_json_error e then Ok analysis_fallback_json
            else Ok (analysis_fallback_error E e)
        end
    end.
Proof.
  unfold analyze_resume_with_ai, create_completion. run_monad. split_match.
Qed.

Lemma generate_interview_questions_ok (text : str) (w : world) :
  exists v, generate_interview_questions E text w
            = (Ok v, log (EvCompletion (questions_request text)) w).
Proof.
  unfold generate_interview_questions. run_monad.
  pose proof (complete_and_decode_world (questions_request text) w) as Hw.
  destruct (complete_and_decode E (questions_request text) w) as [[v|e] w1];
    simpl in Hw; subst w1; eauto.
Qed.

(** [evaluate_answer] always returns: the decoded object, or the fallback. *)
Lemma evaluate_answer_run (question answer : str) (w : world) :
  evaluate_answer E question answer w
  = (Ok match chat_completions_create E (evaluation_request question answer) with
        | Ok (Some response_text) =>
            match json_loads E (clean_response response_text) with
            | Ok decoded => decoded
            | Raise _ => evaluation_fallback
            end
        | Ok None | Raise _ => evaluation_fallback
        end,
     log (EvCompletion (evaluation_request question answer)) w).
Proof.
  unfold evaluate_answer, try_except.
  pose proof (complete_and_decode_world (evaluation_request question answer) w) as Hw.
  pose proof (complete_and_decode_result (evaluation_request question answer) w) as Hr.
  destruct (complete_and_decode E (evaluation_request question answer) w) as [r w1].
  simpl in Hw, Hr. subst w1 r.
  destruct (chat_completions_create E (evaluation_request question answer))
    as [[c|]|e]; try reflexivity.
  destruct (json_loads E (clean_response c)); reflexivity.
Qed.

(** [upload_resume] once the extension is accepted and the upload stored. *)
Lemma upload_resume_run (file : UploadFile) (w : world) :
  str_in (str_lower E (snd (splitext (filename file)))) allowed_extensions = true ->
  open_wb_ok E (upload_path file) = true ->
  upload_resume E file w =
    let error e :=
      Raise (HTTPException 500 (py "Error processing resume: " ++ exn_str E e)) in
    match extracted E file w with
    | Raise e => (error e, removed (upload_path file) (stored file w))
    | Ok text =>
        if (length (strip text) <? 50)%nat then
          (error (HTTPException 400 (py "Resume appears to be empty or too short")),
           removed (upload_path file) (stored file w))
        else
          (match fst (analyze_resume_with_ai E text (stored file w)) with
           | Ok analysis => Ok (resume_envelope file analysis text)
           | Raise e => error e
           end,
           removed (upload_path file)
             (log (EvCompletion (analysis_request text)) (stored file w)))
    end.
Proof.
  intros Hext Hopen. unfold upload_resume. rewrite Hext.
  change (negb true) with false. cbv iota zeta.
  unfold bind at 1. unfold write_file. rewrite Hopen.
  fold (stored file w).
  unfold try_finally, try_except. unfold bind at 1.
  rewrite extract_stored.
  destruct (extracted E file w) as [text|e].
  - destruct (length (strip text) <? 50)%nat.
    + unfold raise at 1 2. rewrite remove_if_exists_present; [reflexivity|].
      rewrite stored_has_file; eauto.
    + unfold bind, ret.
      pose proof (analyze_resume_with_ai_world text (stored file w)) as Hw.
      destruct (analyze_resume_with_ai E text (stored file w)) as [[v|e] w1];
        simpl in Hw; subst w1; simpl fst; unfold raise;
        (rewrite remove_if_exists_present; [reflexivity|]);
        simpl; rewrite lookup_insert_eq; eauto.
  - unfold raise. rewrite remove_if_exists_present; [reflexivity|].
    rewrite stored_has_file; eauto.
Qed.

Lemma upload_resume_unwritable (file : UploadFile) (w : world) :
  str_in (str_lower E (snd (splitext (filename file)))) allowed_extensions = true ->
  open_wb_ok E (upload_path file) = false ->
  upload_resume E file w = (Raise (OSError (upload_path file)), store_failed E file w).
Proof.
  intros Hext Hopen. unfold upload_resume. rewrite Hext.
  change (negb true) with false. cbv iota zeta.
  unfold bind at 1. unfold write_file, store_failed. rewrite Hopen.
  destruct (interrupted_store E (upload_path file)); reflexivity.
Qed.

Lemma upload_resume_rejected (file : UploadFile) (w : world) :
  str_in (str_lower E (snd (splitext (filename file)))) allowed_extensions = false ->
  upload_resume E file w
  = (Raise (HTTPException 400
              (py "File type not supported. Please upload .pdf, .docx, .txt")), w).
Proof.
  intros Hext. unfold upload_resume. rewrite Hext. reflexivity.
Qed.

(** [generate_questions] once the upload is stored. *)
Lemma generate_questions_run (file : UploadFile) (w : world) :
  open_wb_ok E (upload_path file) = true ->
  generate_questions E file w =
    match extracted E file w with
    | Raise e =>
        (Raise (HTTPException 500 (py "Error generating questions: " ++ exn_str E e)),
         removed (upload_path file) (stored file w))
    | Ok text =>
        (match fst (generate_interview_questions E text (stored file w)) with
         | Ok questions =>
             Ok (PDict [(py "success", PBool true); (py "questions", questions)])
         | Raise e =>
             Raise (HTTPException 500 (py "Error generating questions: " ++ exn_str E e))
         end,
         removed (upload_path file)
           (log (EvCompletion (questions_request text)) (stored file w)))
    end.
Proof.
  intros Hopen. unfold generate_questions. cbv zeta.
  unfold bind at 1. unfold write_file. rewrite Hopen.
  fold (stored file w).
  unfold try_finally, try_except. unfold bind at 1.
  rewrite extract_stored.
  destruct (extracted E file w) as [text|e].
  - unfold bind, ret.
    destruct (generate_interview_questions_ok text (stored file w)) as [v ->].
    simpl fst. rewrite remove_if_exists_present; [reflexivity|].
    simpl; rewrite lookup_insert_eq; eauto.
  - unfold raise. rewrite remove_if_exists_present; [reflexivity|].
    rewrite stored_has_file; eauto.
Qed.

Lemma generate_questions_unwritable (file : UploadFile) (w : world) :
  open_wb_ok E (upload_path file) = false ->
  generate_questions E file w
  = (Raise (OSError (upload_path file)), store_failed E file w).
Proof.
  intros Hopen. unfold generate_questions. cbv zeta.
  unfold bind at 1. unfold write_file, store_failed. rewrite Hopen.
  destruct (interrupted_store E (upload_path file)); reflexivity.
Qed.

End Runs.

(** ** The extraction dispatcher *)

Lemma endswith_exclusive (name : str) :
  (endswith name (py ".pdf") = true -> endswith name (py ".docx") = false
     /\ endswith name (py ".txt") = false)
  /\ (endswith name (py ".docx") = true -> endswith name (py ".pdf") = false
     /\ endswith name (py ".txt") = false)
  /\ (endswith name (py ".txt") = true -> endswith name (py ".pdf") = false
     /\ endswith name (py ".docx") = false).
Proof.
  unfold endswith. destruct (rev name) as [|c r]; [repeat split; discriminate|].
  change (rev (py ".pdf")) with [102; 100; 112; 46]%N.
  change (rev (py ".docx")) with [120; 99; 111; 100; 46]%N.
  change (rev (py ".txt")) with [116; 120; 116; 46]%N.
  cbn [startswith].
  destruct (N.eqb_spec 102 c) as [<-|]; [repeat split; reflexivity || discriminate|].
  destruct (N.eqb_spec 120 c) as [<-|]; [repeat split; reflexivity || discriminate|].
  destruct (N.eqb_spec 116 c) as [<-|]; repeat split; reflexivity || discriminate.
Qed.

Lemma extract_text_from_file_unsupported (E : Env) (file_path name : str)
    (w : world) :
  endswith name (py ".pdf") = false ->
  endswith name (py ".docx") = false ->
  endswith name (py ".txt") = false ->
  extract_text_from_file E file_path name w
  = (Raise (ValueError (py "Unsupported file type")), w).
Proof.
  intros Hpdf Hdocx Htxt. unfold extract_text_from_file.
  rewrite Hpdf, Hdocx, Htxt. reflexivity.
Qed.

(** C7: the extraction dispatcher selects the PDF extractor for names
    ending in .pdf, the DOCX extractor for names ending in .docx, the UTF-8
    text read of the stored bytes for names ending in .txt, and raises
    [ValueError("Unsupported file type")] for every other name. *)
Theorem extract_text_from_file_dispatch (E : Env) (file_path name : str) :
  (endswith name (py ".pdf") = true ->
     extract_text_from_file E file_path name = extract_text_from_pdf E file_path)
  /\ (endswith name (py ".docx") = true ->
     extract_text_from_file E file_path name = extract_text_from_docx E file_path)
  /\ (endswith name (py ".txt") = true ->
     forall (w : world) (stored_bytes : bytes),
       files w !! file_path = Some stored_bytes ->
       extract_text_from_file E file_path name w
       = (read_text_utf8 E stored_bytes, w))
  /\ (endswith name (py ".pdf") = false ->
      endswith name (py ".docx") = false ->
      endswith name (py ".txt") = false ->
      forall w : world,
        extract_text_from_file E file_path name w
        = (Raise (ValueError (py "Unsupported file type")), w)).
Proof.
  destruct (endswith_exclusive name) as (Hpdf & Hdocx & Htxt).
  unfold extract_text_from_file. repeat split.
  - intros H. rewrite H. reflexivity.
  - intros H. destruct (Hdocx H) as [-> _]. rewrite H. reflexivity.
  - intros H w b Hb. destruct (Htxt H) as [-> ->]. rewrite H.
    unfold bind, read_file, lift. rewrite Hb. reflexivity.
  - intros H1 H2 H3 w. apply extract_text_from_file_unsupported; assumption.
Qed.

Lemma extract_text_from_file_dispatch_witness :
  extract_text_from_file (Ref.env (fun _ => Ok None))
    (py "uploads/cv.pdf") (py "cv.pdf")
  = extract_text_from_pdf (Ref.env (fun _ => Ok None)) (py "uploads/cv.pdf")
  /\ extract_text_from_file (Ref.env (fun _ => Ok None))
       (py "uploads/cv.docx") (py "cv.docx")
     = extract_text_from_docx (Ref.env (fun _ => Ok None)) (py "uploads/cv.docx")
  /\ extract_text_from_file (Ref.env (fun _ => Ok None))
       (py "uploads/cv.txt") (py "cv.txt") (stored Examples.resume_txt Ref.empty_world)
     = (Ok Examples.resume_text, stored Examples.resume_txt Ref.empty_world)
  /\ extract_text_from_file (Ref.env (fun _ => Ok None))
       (py "uploads/cv.PDF") (py "cv.PDF") Ref.empty_world
     = (Raise (ValueError (py "Unsupported file type")), Ref.empty_world).
Proof.
  split; [|split; [|split]].
  - apply (extract_text_from_file_dispatch (Ref.env (fun _ => Ok None))
             (py "uploads/cv.pdf") (py "cv.pdf")). reflexivity.
  - apply (extract_text_from_file_dispatch (Ref.env (fun _ => Ok None))
             (py "uploads/cv.docx") (py "cv.docx")). reflexivity.
  - destruct (extract_text_from_file_dispatch (Ref.env (fun _ => Ok None))
                (py "uploads/cv.txt") (py "cv.txt")) as (_ & _ & H & _).
    apply (H eq_refl (stored Examples.resume_txt Ref.empty_world)
             (content Examples.resume_txt)).
    vm_compute. reflexivity.
  - destruct (extract_text_from_file_dispatch (Ref.env (fun _ => Ok None))
                (py "uploads/cv.PDF") (py "cv.PDF")) as (_ & _ & _ & H).
    apply H; reflexivity.
Defined.

(** ** Validation of the extension *)

(** C6: when the lower-cased extension of the uploaded name is not one of
    .pdf, .docx, .txt, [upload_resume] answers HTTP 400 with a detail that
    lists the allowed extensions, and the world is untouched: no file was
    written and no event recorded. *)
Theorem upload_resume_rejects_extension (E : Env) (file : UploadFile) (w : world) :
  str_in (str_lower E (snd (splitext (filename file)))) allowed_extensions = false ->
  serve (upload_resume E file) w
  = ({| status := 400;
        body := detail_body
                  (py "File type not supported. Please upload .pdf, .docx, .txt") |},
     w)
  /\ new_events w (snd (serve (upload_resume E file) w)) = [].
Proof.
  intros Hext. unfold serve. rewrite upload_resume_rejected by assumption.
  split; [reflexivity|]. unfold new_events. simpl. apply drop_all.
Qed.

Lemma upload_resume_rejects_extension_witness :
  serve (upload_resume Examples.unreachable Examples.xyz_file) Ref.empty_world
  = ({| status := 400;
        body := detail_body
                  (py "File type not supported. Please upload .pdf, .docx, .txt") |},
     Ref.empty_world)
  /\ new_events Ref.empty_world
       (snd (serve (upload_resume Examples.unreachable Examples.xyz_file)
               Ref.empty_world)) = [].
Proof.
  apply (upload_resume_rejects_extension Examples.unreachable Examples.xyz_file
           Ref.empty_world).
  vm_compute. reflexivity.
Defined.

(** ** Extensions that differ by letter case *)

Lemma unsupported_when_not_allowed (E : Env) (name : str) :
  str_in (str_lower E (snd (splitext name))) allowed_extensions = true ->
  str_in (snd (splitext name)) allowed_extensions = false ->
  endswith name (py ".pdf") = false
  /\ endswith name (py ".docx") = false
  /\ endswith name (py ".txt") = false.
Proof.
  intros Hlow Hraw.
  assert (~ (endswith name (py ".pdf") = true \/ endswith name (py ".docx") = true
             \/ endswith name (py ".txt") = true)) as Hno.
  { intros H. apply dispatch_suffix_allowed in H as [H|H].
    - congruence.
    - rewrite H, str_lower_nil in Hlow. discriminate. }
  repeat split; apply not_true_is_false; intros H; apply Hno; tauto.
Qed.

(** C10: when the extension is accepted only after lower-casing (it is not
    itself one of .pdf, .docx, .txt), the upload is stored, the dispatcher
    raises [ValueError("Unsupported file type")], and the request answers
    HTTP 500 with that message; the remote service is not called and the
    stored file is removed. *)
Theorem upload_resume_case_mismatch (E : Env) (file : UploadFile) (w : world) :
  str_in (str_lower E (snd (splitext (filename file)))) allowed_extensions = true ->
  str_in (snd (splitext (filename file))) allowed_extensions = false ->
  open_wb_ok E (upload_path file) = true ->
  extracted E file w = Raise (ValueError (py "Unsupported file type"))
  /\ serve (upload_resume E file) w
     = ({| status := 500;
           body := detail_body (py "Error processing resume: Unsupported file type") |},
        removed (upload_path file) (stored file w))
  /\ new_events w (snd (serve (upload_resume E file) w))
     = [EvWrite (upload_path file); EvRemove (upload_path file)].
Proof.
  intros Hlow Hraw Hopen.
  destruct (unsupported_when_not_allowed E (filename file) Hlow Hraw)
    as (Hpdf & Hdocx & Htxt).
  assert (extracted E file w = Raise (ValueError (py "Unsupported file type"))) as Hx.
  { unfold extracted.
    rewrite extract_text_from_file_unsupported by assumption. reflexivity. }
  split; [exact Hx|].
  unfold serve. rewrite upload_resume_run by assumption. rewrite Hx. cbv zeta.
  split; [reflexivity|].
  unfold new_events. simpl. rewrite <- app_assoc. apply drop_app_length.
Qed.

Lemma upload_resume_case_mismatch_witness :
  extracted Examples.unreachable Examples.upper_pdf Ref.empty_world
  = Raise (ValueError (py "Unsupported file type"))
  /\ serve (upload_resume Examples.unreachable Examples.upper_pdf) Ref.empty_world
     = ({| status := 500;
           body := detail_body (py "Error processing resume: Unsupported file type") |},
        removed (upload_path Examples.upper_pdf)
          (stored Examples.upper_pdf Ref.empty_world))
  /\ new_events Ref.empty_world
       (snd (serve (upload_resume Examples.unreachable Examples.upper_pdf)
               Ref.empty_world))
     = [EvWrite (upload_path Examples.upper_pdf);
        EvRemove (upload_path Examples.upper_pdf)].
Proof.
  apply (upload_resume_case_mismatch Examples.unreachable Examples.upper_pdf
           Ref.empty_world); vm_compute; reflexivity.
Defined.

(** ** Resumes that are too short *)

(** C1 (the code answers 500 where 400 is claimed): when the extracted text,
    trimmed, has fewer than 50 characters, the [HTTPException(400)] raised
    inside the [try] block is caught by [except Exception] and raised again
    as status 500, whose detail embeds the string form of the first one.
    The remote completion call is not made. *)
Theorem upload_resume_short_text (E : Env) (file : UploadFile) (w : world)
    (text : str) :
  str_in (str_lower E (snd (splitext (filename file)))) allowed_extensions = true ->
  open_wb_ok E (upload_path file) = true ->
  extracted E file w = Ok text ->
  (length (strip text) < 50)%nat ->
  fst (serve (upload_resume E file) w)
  = {| status := 500;
       body := detail_body
                 (py "Error processing resume: "
                  ++ http_exception_str E 400
                       (py "Resume appears to be empty or too short")) |}
  /\ existsb is_completion (new_events w (snd (serve (upload_resume E file) w)))
     = false.
Proof.
  intros Hext Hopen Hx Hlen. unfold serve.
  rewrite upload_resume_run by assumption. rewrite Hx. cbv zeta.
  apply Nat.ltb_lt in Hlen. rewrite Hlen. split; [reflexivity|].
  unfold new_events. simpl. rewrite <- app_assoc, drop_app_length. reflexivity.
Qed.

Lemma upload_resume_short_text_witness :
  fst (serve (upload_resume Examples.unreachable Examples.short_txt) Ref.empty_world)
  = {| status := 500;
       body := detail_body
                 (py "Error processing resume: 400: Resume appears to be empty or too short") |}
  /\ existsb is_completion
       (new_events Ref.empty_world
          (snd (serve (upload_resume Examples.unreachable Examples.short_txt)
                  Ref.empty_world)))
     = false.
Proof.
  apply (upload_resume_short_text Examples.unreachable Examples.short_txt
           Ref.empty_world (py "0123456789")).
  - vm_compute. reflexivity.
  - vm_compute. reflexivity.
  - vm_compute. reflexivity.
  - apply Nat.ltb_lt. vm_compute. reflexivity.
Defined.

(** ** The scratch file *)

Lemma new_events_app (w w' : world) (evs : list event) :
  trace w' = trace w ++ evs -> new_events w w' = evs.
Proof. intros H. unfold new_events. rewrite H. apply drop_app_length. Qed.

Lemma removed_stored_outcome (file : UploadFile) (w : world) :
  scratch_outcome (upload_path file) w (removed (upload_path file) (stored file w)).
Proof.
  apply (WrittenAndRemoved _ _ _ []); simpl.
  - apply delete_insert_eq.
  - rewrite <- app_assoc. reflexivity.
  - reflexivity.
Qed.

Lemma removed_completed_outcome (file : UploadFile) (w : world)
    (req : completion_request) :
  scratch_outcome (upload_path file) w
    (removed (upload_path file) (log (EvCompletion req) (stored file w))).
Proof.
  apply (WrittenAndRemoved _ _ _ [EvCompletion req]); simpl.
  - apply delete_insert_eq.
  - rewrite <- !app_assoc. reflexivity.
  - reflexivity.
Qed.

Lemma store_failed_outcome (E : Env) (file : UploadFile) (w : world) :
  scratch_outcome (upload_path file) w (store_failed E file w).
Proof.
  unfold store_failed. destruct (interrupted_store E (upload_path file)) as [b|].
  - apply (StoreInterrupted _ _ _ b); reflexivity.
  - apply NothingWritten. reflexivity.
Qed.

Lemma upload_resume_outcome (E : Env) (file : UploadFile) (w : world) :
  scratch_outcome (upload_path file) w (snd (upload_resume E file w)).
Proof.
  destruct (str_in (str_lower E (snd (splitext (filename file)))) allowed_extensions)
    eqn:Hext.
  - destruct (open_wb_ok E (upload_path file)) eqn:Hopen.
    + rewrite upload_resume_run by assumption. cbv zeta.
      destruct (extracted E file w) as [text|e].
      * destruct (length (strip text) <? 50)%nat; simpl.
        -- apply removed_stored_outcome.
        -- apply removed_completed_outcome.
      * apply removed_stored_outcome.
    + rewrite upload_resume_unwritable by assumption. apply store_failed_outcome.
  - rewrite upload_resume_rejected by assumption. apply NothingWritten. reflexivity.
Qed.

Lemma generate_questions_outcome (E : Env) (file : UploadFile) (w : world) :
  scratch_outcome (upload_path file) w (snd (generate_questions E file w)).
Proof.
  destruct (open_wb_ok E (upload_path file)) eqn:Hopen.
  - rewrite generate_questions_run by assumption.
    destruct (extracted E file w) as [text|e]; simpl.
    + apply removed_completed_outcome.
    + apply removed_stored_outcome.
  - rewrite generate_questions_unwritable by assumption. apply store_failed_outcome.
Qed.

Lemma scratch_outcome_removed (path : str) (w w' : world) :
  scratch_outcome path w w' ->
  forall p : str, In (EvWrite p) (new_events w w') ->
    p = path
    /\ files w' !! p = None
    /\ last (new_events w w') = Some (EvRemove p).
Proof.
  intros [->|b _ Htrace|between Hfiles Htrace Hbetween] p Hin.
  - unfold new_events in Hin. rewrite drop_all in Hin. destruct Hin.
  - unfold new_events in Hin. rewrite Htrace, drop_all in Hin. destruct Hin.
  - rewrite (new_events_app _ _ _ Htrace) in *.
    assert (p = path) as ->.
    { destruct Hin as [Hin|Hin]; [congruence|].
      apply in_app_or in Hin as [Hin|[Hin|[]]]; [|discriminate].
      rewrite forallb_forall in Hbetween. apply Hbetween in Hin. discriminate. }
    split; [reflexivity|]. split.
    + rewrite Hfiles. apply lookup_delete_eq.
    + rewrite app_comm_cons. apply last_snoc.
Qed.

(** C5: whatever the outcome of a request to [upload_resume] or to
    [generate_questions], a scratch file the request wrote is the file at
    its upload path, it is gone from the upload directory when the request
    completes, and its removal is the last effect of the request. *)
Theorem scratch_file_removed (E : Env) (file : UploadFile) (w : world) :
  (forall p : str,
     In (EvWrite p) (new_events w (snd (serve (upload_resume E file) w))) ->
     p = upload_path file
     /\ files (snd (serve (upload_resume E file) w)) !! p = None
     /\ last (new_events w (snd (serve (upload_resume E file) w)))
        = Some (EvRemove p))
  /\ (forall p : str,
     In (EvWrite p) (new_events w (snd (serve (generate_questions E file) w))) ->
     p = upload_path file
     /\ files (snd (serve (generate_questions E file) w)) !! p = None
     /\ last (new_events w (snd (serve (generate_questions E file) w)))
        = Some (EvRemove p)).
Proof.
  assert (forall h : M pyobj, snd (serve h w) = snd (h w)) as Hserve.
  { intros h. unfold serve. destruct (h w). reflexivity. }
  rewrite !Hserve. split.
  - apply scratch_outcome_removed, upload_resume_outcome.
  - apply scratch_outcome_removed, generate_questions_outcome.
Qed.

Lemma scratch_file_removed_witness :
  (upload_path Examples.short_txt = py "uploads/short.txt"
   /\ files (snd (serve (upload_resume Examples.unreachable Examples.short_txt)
                    Ref.empty_world)) !! upload_path Examples.short_txt = None
   /\ last (new_events Ref.empty_world
              (snd (serve (upload_resume Examples.unreachable Examples.short_txt)
                      Ref.empty_world)))
      = Some (EvRemove (upload_path Examples.short_txt)))
  /\ (upload_path Examples.resume_txt = py "uploads/cv.txt"
   /\ files (snd (serve (generate_questions Examples.unreachable Examples.resume_txt)
                    Ref.empty_world)) !! upload_path Examples.resume_txt = None
   /\ last (new_events Ref.empty_world
              (snd (serve (generate_questions Examples.unreachable Examples.resume_txt)
                      Ref.empty_world)))
      = Some (EvRemove (upload_path Examples.resume_txt))).
Proof.
  split.
  - apply (proj1 (scratch_file_removed Examples.unreachable Examples.short_txt
                    Ref.empty_world) (py "uploads/short.txt")).
    vm_compute. left. reflexivity.
  - apply (proj2 (scratch_file_removed Examples.unreachable Examples.resume_txt
                    Ref.empty_world) (py "uploads/cv.txt")).
    vm_compute. left. reflexivity.
Defined.

(** ** Rendering *)

Lemma sent_ok (v : pyobj) :
  sent (respond (Ok v))
  = if json_compliant v then {| status := 200; body := v |}
    else internal_server_error.
Proof. reflexivity. Qed.

Lemma sent_status_200 (r : response) :
  status (sent r) = 200 <-> status r = 200 /\ json_compliant (body r) = true.
Proof.
  unfold sent. destruct (json_compliant (body r)); simpl.
  - tauto.
  - split; [discriminate | intros [_ H]; discriminate].
Qed.

Lemma sent_status_cases (r : response) :
  status (sent r) = status r \/ status (sent r) = 500.
Proof. unfold sent. destruct (json_compliant (body r)); [left | right]; reflexivity. Qed.

Lemma sent_unchanged (r : response) :
  json_compliant (body r) = true -> sent r = r.
Proof. intros H. unfold sent. rewrite H. reflexivity. Qed.

(** The envelope of [upload_resume] renders when the name of the upload,
    the preview and the analysis do. *)
Lemma resume_envelope_renders (file : UploadFile) (analysis : pyobj) (text : str) :
  encodable (filename file) = true ->
  encodable (take 500 text) = true ->
  json_compliant analysis = true ->
  json_compliant (resume_envelope file analysis text) = true.
Proof.
  intros Hname Htext Ha. unfold resume_envelope.
  cbn [json_compliant forallb fst snd]. rewrite Hname, Ha.
  unfold encodable at 5. rewrite forallb_app. fold (encodable (take 500 text)).
  rewrite Htext. reflexivity.
Qed.

(** The fixed fallbacks render. *)
Lemma fallbacks_render :
  json_compliant analysis_fallback_json = true
  /\ json_compliant questions_fallback = true
  /\ json_compliant evaluation_fallback = true.
Proof. repeat split; vm_compute; reflexivity. Qed.

(** An envelope with one decoded member renders when that member does. *)
Lemma json_compliant_envelope (key : string) (v : pyobj) :
  encodable (py key) = true ->
  json_compliant (PDict [(py "success", PBool true); (py key, v)])
  = json_compliant v.
Proof.
  intros Hkey. cbn [json_compliant forallb fst snd]. rewrite Hkey.
  change (encodable (py "success")) with true. cbn [andb]. apply andb_true_r.
Qed.

(** ** The success envelope *)

(** C8: when [upload_resume] succeeds, what it returns is the dict with
    [success] true, the uploaded [filename], the [analysis] that
    [analyze_resume_with_ai] returned for the extracted text, and
    [resume_text], the first 500 characters of the extracted text followed
    by three dots; it is sent with status 200 when it renders as JSON, and
    with a bare 500 when the rendering fails. *)
Theorem upload_resume_success_envelope (E : Env) (file : UploadFile)
    (w w' : world) (v : pyobj) :
  upload_resume E file w = (Ok v, w') ->
  exists (text : str) (analysis : pyobj),
    extracted E file w = Ok text
    /\ fst (analyze_resume_with_ai E text (stored file w)) = Ok analysis
    /\ v = PDict [
             (py "success", PBool true);
             (py "filename", PStr (filename file));
             (py "analysis", analysis);
             (py "resume_text", PStr (take 500 text ++ py "..."))
           ]
    /\ length (take 500 text ++ py "...") = (Nat.min 500 (length text) + 3)%nat
    /\ sent (fst (serve (upload_resume E file) w))
       = if json_compliant v then {| status := 200; body := v |}
         else internal_server_error.
Proof.
  intros Hrun.
  assert (sent (fst (serve (upload_resume E file) w))
          = if json_compliant v then {| status := 200; body := v |}
            else internal_server_error) as Hs.
  { unfold serve. rewrite Hrun. apply sent_ok. }
  destruct (str_in (str_lower E (snd (splitext (filename file)))) allowed_extensions)
    eqn:Hext; [|rewrite upload_resume_rejected in Hrun by assumption; discriminate].
  destruct (open_wb_ok E (upload_path file)) eqn:Hopen;
    [|rewrite upload_resume_unwritable in Hrun by assumption; discriminate].
  rewrite upload_resume_run in Hrun by assumption. cbv zeta in Hrun.
  destruct (extracted E file w) as [text|e]; [|discriminate].
  destruct (length (strip text) <? 50)%nat; [discriminate|].
  destruct (fst (analyze_resume_with_ai E text (stored file w))) as [analysis|e] eqn:Ha;
    [|discriminate].
  exists text, analysis. injection Hrun as <- _.
  repeat split; try assumption.
  rewrite length_app, length_take. simpl. lia.
Qed.

Lemma upload_resume_success_envelope_witness :
  exists (text : str) (analysis : pyobj),
    extracted (Examples.answering Examples.fenced_response) Examples.resume_txt
      Ref.empty_world = Ok text
    /\ fst (analyze_resume_with_ai (Examples.answering Examples.fenced_response) text
              (stored Examples.resume_txt Ref.empty_world)) = Ok analysis
    /\ resume_envelope Examples.resume_txt (PDict [(py "a", PInt 1)]) Examples.resume_text
       = PDict [
             (py "success", PBool true);
             (py "filename", PStr (filename Examples.resume_txt));
             (py "analysis", analysis);
             (py "resume_text", PStr (take 500 text ++ py "..."))
           ]
    /\ length (take 500 text ++ py "...") = (Nat.min 500 (length text) + 3)%nat
    /\ sent (fst (serve (upload_resume (Examples.answering Examples.fenced_response)
                           Examples.resume_txt) Ref.empty_world))
       = {| status := 200;
            body := resume_envelope Examples.resume_txt (PDict [(py "a", PInt 1)])
                      Examples.resume_text |}.
Proof.
  apply (upload_resume_success_envelope (Examples.answering Examples.fenced_response)
           Examples.resume_txt Ref.empty_world
           (removed (upload_path Examples.resume_txt)
              (log (EvCompletion (analysis_request Examples.resume_text))
                 (stored Examples.resume_txt Ref.empty_world)))).
  vm_compute. reflexivity.
Defined.

(** ** Answer evaluation *)

(** C9 as stated fails: when the remote service replies with a score that
    is NaN, the reply decodes, [evaluate_answer] returns it and the handler
    returns its envelope without entering the [except] branch, but the
    envelope cannot be rendered as JSON and the request is answered with
    HTTP 500, not 200. *)
Lemma evaluate_answer_nan_reply :
  fst (evaluate_answer Scenarios.nan_scoring (question Scenarios.why_go)
         (answer Scenarios.why_go) Ref.empty_world)
  = Ok (PDict [(py "score", PFloat Scenarios.nan_bits)])
  /\ fst (evaluate_answer_endpoint Scenarios.nan_scoring Scenarios.why_go
            Ref.empty_world)
     = Ok (PDict [(py "success", PBool true);
                  (py "evaluation", PDict [(py "score", PFloat Scenarios.nan_bits)])])
  /\ status (sent (fst (serve (evaluate_answer_endpoint Scenarios.nan_scoring
                                 Scenarios.why_go) Ref.empty_world))) = 500
  /\ status (sent (fst (serve (evaluate_answer_endpoint Scenarios.nan_scoring
                                 Scenarios.why_go) Ref.empty_world))) <> 200.
Proof.
  split; [vm_compute; reflexivity|]. split; [vm_compute; reflexivity|].
  assert (status (sent (fst (serve (evaluate_answer_endpoint Scenarios.nan_scoring
                                      Scenarios.why_go) Ref.empty_world))) = 500) as H
    by (vm_compute; reflexivity).
  split; [exact H|]. rewrite H. discriminate.
Qed.

(** C9, amended: [evaluate_answer] returns for every question and answer,
    whatever the client and the decoder do: the decoded object when both
    succeed, and otherwise the fixed fallback, whose score is 6.  So the
    [except] branch of [evaluate_answer_endpoint] is never entered and the
    handler always returns the envelope with [success] true.  The envelope
    is sent with HTTP 200 when the evaluation renders as JSON, which the
    fallback always does, and the request is answered with HTTP 500 when a
    decoded evaluation holds a float that is not finite or a lone
    surrogate. *)
Theorem evaluate_answer_never_raises (E : Env) (data : AnswerEvaluation) (w : world) :
  let req := evaluation_request (question data) (answer data) in
  let evaluation :=
    match chat_completions_create E req with
    | Ok (Some response_text) =>
        match json_loads E (clean_response response_text) with
        | Ok decoded => decoded
        | Raise _ => evaluation_fallback
        end
    | Ok None | Raise _ => evaluation_fallback
    end in
  evaluate_answer E (question data) (answer data) w
  = (Ok evaluation, log (EvCompletion req) w)
  /\ evaluate_answer_endpoint E data w
     = (Ok (PDict [(py "success", PBool true); (py "evaluation", evaluation)]),
        log (EvCompletion req) w)
  /\ sent (fst (serve (evaluate_answer_endpoint E data) w))
     = (if json_compliant evaluation
        then {| status := 200;
                body := PDict [(py "success", PBool true);
                               (py "evaluation", evaluation)] |}
        else internal_server_error)
  /\ dict_get (py "score") evaluation_fallback = Some (PInt 6)
  /\ json_compliant evaluation_fallback = true.
Proof.
  intros req evaluation.
  assert (evaluate_answer E (question data) (answer data) w
          = (Ok evaluation, log (EvCompletion req) w)) as Hrun.
  { apply evaluate_answer_run. }
  assert (evaluate_answer_endpoint E data w
          = (Ok (PDict [(py "success", PBool true); (py "evaluation", evaluation)]),
             log (EvCompletion req) w)) as Hend.
  { unfold evaluate_answer_endpoint, try_except, bind. rewrite Hrun. reflexivity. }
  split; [exact Hrun|]. split; [exact Hend|]. split; [|split; reflexivity].
  unfold serve. rewrite Hend. cbn [fst]. rewrite sent_ok.
  rewrite (json_compliant_envelope "evaluation") by reflexivity. reflexivity.
Qed.

(** ** The fallbacks of the resume analysis *)




(** ** The text of the error in the fallbacks *)

Lemma contains_suffix (prefix s : str) : contains (prefix ++ s) s = true.
Proof.
  assert (startswith s s = true) as Hrefl.
  { apply startswith_app. exists []. symmetry. apply app_nil_r. }
  induction prefix as [|c prefix IH]; simpl app.
  - destruct s; cbn [contains]; rewrite Hrefl; reflexivity.
  - cbn [contains]. rewrite IH. apply orb_true_r.
Qed.

(** C3 as stated fails: with an unreachable remote service [evaluate_answer]
    returns its one fixed fallback, which has no summary and no string that
    contains the text of the error. *)
Lemma evaluation_fallback_ignores_error :
  chat_completions_create Examples.unreachable
    (evaluation_request (py "Why Go?") (py "Because I like it."))
  = Raise Examples.connection_error
  /\ fst (evaluate_answer Examples.unreachable (py "Why Go?") (py "Because I like it.")
            Ref.empty_world) = Ok evaluation_fallback
  /\ dict_get (py "summary") evaluation_fallback = None
  /\ mentions evaluation_fallback
       (take 100 (exn_str Examples.unreachable Examples.connection_error)) = false.
Proof.
  split; [reflexivity|]. split; [vm_compute; reflexivity|].
  split; vm_compute; reflexivity.
Qed.

(** C3, amended: on the path where the remote call raises an error (other
    than a JSON decoding error), it is the resume-analysis variant whose
    fallback embeds the string form of the error, cut to 100 characters, in
    its summary; the answer-evaluation variant returns the same fixed
    fallback for every error, and that fallback has no summary. *)
Theorem fallback_error_text (E : Env) (e : exn) :
  is_json_error e = false ->
  (forall (text : str) (w : world),
     chat_completions_create E (analysis_request text) = Raise e ->
     fst (analyze_resume_with_ai E text w) = Ok (analysis_fallback_error E e))
  /\ dict_get (py "summary") (analysis_fallback_error E e)
     = Some (PStr (py "Error occurred: " ++ take 100 (exn_str E e)))
  /\ (length (take 100 (exn_str E e)) <= 100)%nat
  /\ mentions (analysis_fallback_error E e) (take 100 (exn_str E e)) = true
  /\ (forall (question answer : str) (w : world),
     chat_completions_create E (evaluation_request question answer) = Raise e ->
     fst (evaluate_answer E question answer w) = Ok evaluation_fallback)
  /\ dict_get (py "summary") evaluation_fallback = None.
Proof.
  intros He. split; [|split; [|split; [|split; [|split]]]].
  - intros text w Hc. rewrite analyze_resume_with_ai_result, Hc, He. reflexivity.
  - reflexivity.
  - rewrite length_take. lia.
  - unfold mentions. apply existsb_exists.
    exists (py "Error occurred: " ++ take 100 (exn_str E e)). split.
    + simpl. do 11 right. left. reflexivity.
    + apply contains_suffix.
  - intros question answer w Hc.
    rewrite evaluate_answer_run. simpl fst. rewrite Hc. reflexivity.
  - reflexivity.
Qed.

Lemma fallback_error_text_witness :
  fst (analyze_resume_with_ai Examples.unreachable Examples.resume_text Ref.empty_world)
  = Ok (analysis_fallback_error Examples.unreachable Examples.connection_error)
  /\ dict_get (py "summary")
       (analysis_fallback_error Examples.unreachable Examples.connection_error)
     = Some (PStr (py "Error occurred: Connection error."))
  /\ fst (evaluate_answer Examples.unreachable (py "Why Go?") (py "Because I like it.")
            Ref.empty_world) = Ok evaluation_fallback.
Proof.
  destruct (fallback_error_text Examples.unreachable Examples.connection_error eq_refl)
    as (Ha & Hs & _ & _ & Hv & _).
  split; [apply Ha; reflexivity|]. split; [exact Hs|]. apply Hv. reflexivity.
Defined.

(** ** Cleaning the response *)

(** C4 as stated fails: on a response that begins with a tagged marker
    followed by a bare one, the code strips both leading markers and the
    remainder decodes; stripping a single leading marker leaves a bare
    marker in front, and the remainder is not JSON. *)
Lemma clean_response_strips_two_markers :
  clean_response Examples.double_fenced_response = lit "{^a^:1}"
  /\ spec_clean_response Examples.double_fenced_response = lit "```{^a^:1}"
  /\ Ref.loads (clean_response Examples.double_fenced_response)
     = Ok (PDict [(py "a", PInt 1)])
  /\ Ref.loads (spec_clean_response Examples.double_fenced_response)
     = Raise (JSONDecodeError (py "Expecting value")).
Proof. repeat split; vm_compute; reflexivity. Qed.

(** C4, amended: the parser trims the response, strips a leading tagged
    marker if there is one and then a leading bare marker if there is one
    (both when the tagged marker is directly followed by a bare one, and a
    single leading marker in every other case), strips one trailing marker,
    trims again and decodes the remainder as JSON; the fenced response of
    the specification's example decodes to the mapping of a to 1. *)
Theorem clean_response_fences (E : Env) :
  (forall response_text : str,
     let t := strip response_text in
     clean_response response_text
     = if startswith t (py "```json") && startswith (drop 7 t) (py "```")
       then strip (strip_trailing_fence (drop 10 t))
       else spec_clean_response response_text)
  /\ (forall (req : completion_request) (w : world) (response_text : str),
     chat_completions_create E req = Ok (Some response_text) ->
     fst (complete_and_decode E req w) = json_loads E (clean_response response_text))
  /\ (forall (text : str) (w : world) (response_text : str) (decoded : pyobj),
     chat_completions_create E (analysis_request text) = Ok (Some response_text) ->
     json_loads E (clean_response response_text) = Ok decoded ->
     fst (analyze_resume_with_ai E text w) = Ok decoded)
  /\ clean_response Examples.fenced_response = lit "{^a^:1}"
  /\ Ref.loads (lit "{^a^:1}") = Ok (PDict [(py "a", PInt 1)]).
Proof.
  split; [|split; [|split; [|split]]].
  - intros response_text t.
    unfold clean_response, spec_clean_response, spec_strip_fences.
    fold t. fold (strip_trailing_fence
                    (if startswith (if startswith t (py "```json") then drop 7 t else t)
                          (py "```")
                     then drop 3 (if startswith t (py "```json") then drop 7 t else t)
                     else if startswith t (py "```json") then drop 7 t else t)).
    destruct (startswith t (py "```json")) eqn:Hjson; cbn [andb].
    + destruct (startswith (drop 7 t) (py "```")) eqn:Hbare.
      * rewrite drop_drop. reflexivity.
      * reflexivity.
    + reflexivity.
  - intros req w c Hc. rewrite complete_and_decode_result, Hc. reflexivity.
  - intros text w c v Hc Hv. rewrite analyze_resume_with_ai_result, Hc, Hv.
    reflexivity.
  - vm_compute. reflexivity.
  - vm_compute. reflexivity.
Qed.

Lemma clean_response_fences_witness :
  fst (complete_and_decode (Examples.answering Examples.fenced_response)
         (questions_request Examples.resume_text) Ref.empty_world)
  = Ok (PDict [(py "a", PInt 1)])
  /\ fst (analyze_resume_with_ai (Examples.answering Examples.fenced_response)
            Examples.resume_text Ref.empty_world)
     = Ok (PDict [(py "a", PInt 1)]).
Proof.
  destruct (clean_response_fences (Examples.answering Examples.fenced_response))
    as (_ & Hd & Ha & _).
  split.
  - rewrite (Hd _ _ Examples.fenced_response eq_refl). vm_compute. reflexivity.
  - apply (Ha _ _ Examples.fenced_response); [reflexivity|].
    vm_compute. reflexivity.
Defined.

(** * Further properties *)

(** ** Trimming *)

Lemma lstrip_split (s : str) :
  exists ws, s = ws ++ lstrip s /\ forallb isspace ws = true.
Proof.
  induction s as [|c s (ws & Hs & Hws)]; simpl.
  - exists []. split; reflexivity.
  - destruct (isspace c) eqn:Hc.
    + exists (c :: ws). simpl. rewrite Hc, Hws. split; [f_equal; exact Hs | reflexivity].
    + exists []. split; reflexivity.
Qed.

Lemma lstrip_spaces (ws s : str) :
  forallb isspace ws = true -> lstrip (ws ++ s) = lstrip s.
Proof.
  induction ws as [|c ws IH]; simpl; [reflexivity|].
  intros H. apply andb_true_iff in H as [Hc Hws]. rewrite Hc. apply IH, Hws.
Qed.

Lemma lstrip_head (s : str) :
  match lstrip s with
  | [] => True
  | c :: _ => isspace c = false
  end.
Proof.
  induction s as [|c s IH]; simpl; [exact I|].
  destruct (isspace c) eqn:Hc; [exact IH | exact Hc].
Qed.

Lemma lstrip_cons (c : N) (s : str) : isspace c = false -> lstrip (c :: s) = c :: s.
Proof. intros Hc. simpl. rewrite Hc. reflexivity. Qed.

Lemma lstrip_idem (s : str) : lstrip (lstrip s) = lstrip s.
Proof.
  pose proof (lstrip_head s) as H. destruct (lstrip s) as [|c r]; [reflexivity|].
  apply lstrip_cons, H.
Qed.

Lemma rstrip_split (s : str) :
  exists ws, s = rstrip s ++ ws /\ forallb isspace ws = true.
Proof.
  destruct (lstrip_split (rev s)) as (ws & Hs & Hws).
  exists (rev ws). split.
  - unfold rstrip. rewrite <- rev_app_distr, <- Hs. symmetry. apply rev_involutive.
  - rewrite forallb_forall in *. intros x Hx. apply Hws, in_rev, Hx.
Qed.

Lemma rstrip_spaces (s ws : str) :
  forallb isspace ws = true -> rstrip (s ++ ws) = rstrip s.
Proof.
  intros Hws. unfold rstrip. rewrite rev_app_distr, lstrip_spaces; [reflexivity|].
  rewrite forallb_forall in *. intros x Hx. apply Hws, in_rev, Hx.
Qed.

Lemma rstrip_snoc (s : str) (c : N) :
  isspace c = false -> rstrip (s ++ [c]) = s ++ [c].
Proof.
  intros Hc. unfold rstrip. rewrite rev_app_distr. simpl rev at 2. simpl app.
  rewrite lstrip_cons by exact Hc. simpl. rewrite rev_involutive. reflexivity.
Qed.

Lemma rstrip_idem (s : str) : rstrip (rstrip s) = rstrip s.
Proof. unfold rstrip. rewrite rev_involutive, lstrip_idem. reflexivity. Qed.

(** A trimmed string starts and ends with a character that is not white
    space, so trimming on either side leaves it as it is. *)
Lemma strip_fixed (b : str) : strip b = b -> lstrip b = b /\ rstrip b = b.
Proof.
  intros Hb.
  destruct (lstrip_split b) as (ws & Hl & _).
  destruct (rstrip_split (lstrip b)) as (ws' & Hr & _).
  fold (strip b) in Hr. rewrite Hb in Hr.
  assert (ws = []) as ->.
  { apply (f_equal (@length N)) in Hl, Hr. rewrite length_app in Hl, Hr.
    destruct ws; [reflexivity | simpl in Hl; lia]. }
  simpl in Hl. split; [symmetry; exact Hl|].
  unfold strip in Hb. rewrite <- Hl in Hb. exact Hb.
Qed.

Lemma strip_idem (s : str) : strip (strip s) = strip s.
Proof.
  assert (lstrip (strip s) = strip s) as Hl.
  { unfold strip. pose proof (lstrip_head s) as Hh.
    destruct (rstrip_split (lstrip s)) as (ws & Hs & _).
    destruct (rstrip (lstrip s)) as [|c r]; [reflexivity|].
    rewrite Hs in Hh. apply lstrip_cons, Hh. }
  unfold strip at 1. rewrite Hl. unfold strip. apply rstrip_idem.
Qed.

(** White space around a trimmed text is all that trimming removes. *)
Lemma strip_padded (l b r : str) :
  strip b = b -> forallb isspace l = true -> forallb isspace r = true ->
  strip (l ++ b ++ r) = b.
Proof.
  intros Hb Hl Hr. destruct (strip_fixed b Hb) as [Hlb Hrb].
  unfold strip. rewrite lstrip_spaces by exact Hl.
  destruct b as [|c b].
  - simpl app. rewrite <- (app_nil_r r), lstrip_spaces by exact Hr. reflexivity.
  - pose proof (lstrip_head (c :: b)) as Hc. rewrite Hlb in Hc.
    change ((c :: b) ++ r) with (c :: (b ++ r)). rewrite lstrip_cons by exact Hc.
    change (c :: (b ++ r)) with ((c :: b) ++ r).
    rewrite rstrip_spaces by exact Hr. exact Hrb.
Qed.

Lemma strip_spaces (s : str) : forallb isspace s = true -> strip s = [].
Proof.
  intros Hs. unfold strip. rewrite <- (app_nil_r s), lstrip_spaces by exact Hs.
  reflexivity.
Qed.

Lemma strip_ends (c d : N) (m : str) :
  isspace c = false -> isspace d = false ->
  strip (c :: m ++ [d]) = c :: m ++ [d].
Proof.
  intros Hc Hd. unfold strip. rewrite lstrip_cons by exact Hc.
  change (c :: m ++ [d]) with ((c :: m) ++ [d]). apply rstrip_snoc, Hd.
Qed.

Lemma drop_last_app (x t : str) : drop_last (length t) (x ++ t) = x.
Proof.
  unfold drop_last. rewrite length_app.
  replace (length x + length t - length t)%nat with (length x) by lia.
  apply take_app_length.
Qed.

Lemma part_of_refl (s : str) : part_of s s.
Proof. exists [], []. rewrite app_nil_r. reflexivity. Qed.

Lemma part_of_trans (x y z : str) : part_of x y -> part_of y z -> part_of x z.
Proof.
  intros (a & b & ->) (c & d & ->). exists (c ++ a), (b ++ d).
  rewrite <- !app_assoc. reflexivity.
Qed.

Lemma part_of_drop (n : nat) (s : str) : part_of (drop n s) s.
Proof. exists (take n s), []. rewrite app_nil_r. symmetry. apply take_drop. Qed.

Lemma part_of_take (n : nat) (s : str) : part_of (take n s) s.
Proof. exists [], (drop n s). symmetry. apply take_drop. Qed.

Lemma part_of_strip (s : str) : part_of (strip s) s.
Proof.
  destruct (lstrip_split s) as (ws & Hs & _).
  destruct (rstrip_split (lstrip s)) as (ws' & Hs' & _).
  exists ws, ws'. unfold strip. rewrite <- Hs'. exact Hs.
Qed.

Lemma part_of_length (x s : str) : part_of x s -> (length x <= length s)%nat.
Proof. intros (a & b & ->). rewrite !length_app. lia. Qed.

(** ** More on cleaning the response *)

Lemma clean_response_steps (s : str) :
  clean_response s
  = strip (strip_trailing_fence (strip_leading_fences (strip s))).
Proof. reflexivity. Qed.

(** X1: whatever the response, the cleaned text is a contiguous part of it
    (nothing is inserted or rewritten), it is never longer than the
    response, and it has no white space left at either end. *)
Theorem clean_response_part (response_text : str) :
  part_of (clean_response response_text) response_text
  /\ (length (clean_response response_text) <= length response_text)%nat
  /\ strip (clean_response response_text) = clean_response response_text.
Proof.
  assert (part_of (clean_response response_text) response_text) as Hpart.
  { rewrite clean_response_steps.
    eapply part_of_trans; [apply part_of_strip|].
    eapply part_of_trans; [|apply part_of_strip].
    eapply part_of_trans.
    - unfold strip_trailing_fence.
      destruct (endswith _ _); [apply part_of_take | apply part_of_refl].
    - unfold strip_leading_fences. cbv zeta.
      destruct (startswith (strip response_text) (py "```json")).
      + destruct (startswith _ _).
        * eapply part_of_trans; apply part_of_drop.
        * apply part_of_drop.
      + destruct (startswith _ _); [apply part_of_drop | apply part_of_refl]. }
  split; [exact Hpart|]. split; [apply part_of_length, Hpart|].
  rewrite clean_response_steps. apply strip_idem.
Qed.

(** X2: a trimmed text wrapped in a fence, tagged or bare, with the
    markers on lines of their own, is recovered by the clean-up. *)
Theorem clean_response_unwraps_fence (text : str) :
  strip text = text ->
  clean_response (py "```json" ++ nl ++ text ++ nl ++ py "```") = text
  /\ clean_response (py "```" ++ nl ++ text ++ nl ++ py "```") = text.
Proof.
  intros Htext.
  assert (forall tag : str,
            strip (96%N :: tag ++ nl ++ text ++ nl ++ py "```")
            = 96%N :: tag ++ nl ++ text ++ nl ++ py "```") as Hwhole.
  { intros tag.
    replace (96%N :: tag ++ nl ++ text ++ nl ++ py "```")
      with (96%N :: (tag ++ nl ++ text ++ nl ++ [96%N; 96%N]) ++ [96%N]).
    - apply strip_ends; reflexivity.
    - rewrite <- !app_assoc. reflexivity. }
  assert (strip_trailing_fence (nl ++ text ++ nl ++ py "```") = nl ++ text ++ nl) as Htrail.
  { unfold strip_trailing_fence.
    replace (endswith (nl ++ text ++ nl ++ py "```") (py "```")) with true.
    - rewrite !app_assoc. apply (drop_last_app _ (py "```")).
    - symmetry. apply endswith_app. exists (nl ++ text ++ nl).
      rewrite <- !app_assoc. reflexivity. }
  assert (strip (nl ++ text ++ nl) = text) as Hstrip
    by (apply strip_padded; [exact Htext | reflexivity | reflexivity]).
  split; rewrite clean_response_steps.
  - change (py "```json" ++ nl ++ text ++ nl ++ py "```")
      with (96%N :: py "``json" ++ nl ++ text ++ nl ++ py "```").
    rewrite Hwhole.
    change (strip_leading_fences (96%N :: py "``json" ++ nl ++ text ++ nl ++ py "```"))
      with (nl ++ text ++ nl ++ py "```").
    rewrite Htrail. exact Hstrip.
  - change (py "```" ++ nl ++ text ++ nl ++ py "```")
      with (96%N :: py "``" ++ nl ++ text ++ nl ++ py "```").
    rewrite Hwhole.
    change (strip_leading_fences (96%N :: py "``" ++ nl ++ text ++ nl ++ py "```"))
      with (nl ++ text ++ nl ++ py "```").
    rewrite Htrail. exact Hstrip.
Qed.

Lemma clean_response_unwraps_fence_witness :
  clean_response (py "```json" ++ nl ++ lit "{^score^: 8}" ++ nl ++ py "```")
  = lit "{^score^: 8}"
  /\ clean_response (py "```" ++ nl ++ lit "{^score^: 8}" ++ nl ++ py "```")
     = lit "{^score^: 8}".
Proof.
  apply (clean_response_unwraps_fence (lit "{^score^: 8}")). reflexivity.
Defined.

(** X3: a response without markers at its ends is only trimmed, and a
    response that is all white space (or empty) is cleaned to the empty
    string. *)
Theorem clean_response_plain (response_text : str) :
  (startswith (strip response_text) (py "```") = false ->
   endswith (strip response_text) (py "```") = false ->
   clean_response response_text = strip response_text)
  /\ (forallb isspace response_text = true -> clean_response response_text = []).
Proof.
  split.
  - intros Hstart Hend. rewrite clean_response_steps.
    assert (startswith (strip response_text) (py "```json") = false) as Hjson.
    { apply not_true_is_false. intros H. apply startswith_app in H as [r Hr].
      rewrite (proj2 (startswith_app _ (py "```"))) in Hstart; [discriminate|].
      exists (py "json" ++ r). rewrite Hr. reflexivity. }
    unfold strip_leading_fences. cbv zeta. rewrite Hjson, Hstart.
    unfold strip_trailing_fence. rewrite Hend. apply strip_idem.
  - intros Hs. rewrite clean_response_steps, (strip_spaces _ Hs). reflexivity.
Qed.

Lemma clean_response_plain_witness :
  clean_response (py "  [1, 2, 3]" ++ nl) = py "[1, 2, 3]"
  /\ clean_response (py "   " ++ nl) = [].
Proof.
  split.
  - rewrite (proj1 (clean_response_plain (py "  [1, 2, 3]" ++ nl)));
      reflexivity.
  - apply (proj2 (clean_response_plain (py "   " ++ nl))). reflexivity.
Defined.

(** ** The extractors *)

Lemma fold_left_app_concat (pages : list str) (text : str) :
  fold_left (fun text page => text ++ page) pages text = text ++ List.concat pages.
Proof.
  revert text; induction pages as [|page pages IH]; intros text; simpl.
  - symmetry. apply app_nil_r.
  - rewrite IH. symmetry. apply app_assoc.
Qed.

(** X4: for a stored file that the PDF library reads, the extracted text is
    the page texts one after the other, in page order and with nothing
    between them, so its length is the sum of theirs; a document without
    pages gives the empty text.  The file system is left as it was. *)
Theorem extract_text_from_pdf_concat (E : Env) (file_path : str) (w : world)
    (file : bytes) (pages : list str) :
  files w !! file_path = Some file ->
  pdf_page_texts E file = Ok pages ->
  extract_text_from_pdf E file_path w = (Ok (List.concat pages), w)
  /\ length (List.concat pages) = list_sum (List.map (@length N) pages)
  /\ (pages = [] -> extract_text_from_pdf E file_path w = (Ok [], w)).
Proof.
  intros Hfile Hpages.
  assert (extract_text_from_pdf E file_path w = (Ok (List.concat pages), w)) as Hrun.
  { unfold extract_text_from_pdf, bind, read_file, lift, ret.
    rewrite Hfile, Hpages, fold_left_app_concat. reflexivity. }
  split; [exact Hrun|]. split.
  - clear. induction pages as [|p pages IH]; simpl; [reflexivity|].
    rewrite length_app, IH. reflexivity.
  - intros ->. exact Hrun.
Qed.

Lemma extract_text_from_pdf_concat_witness :
  extract_text_from_pdf Scenarios.parsing (py "uploads/cv.pdf")
    (stored Scenarios.cv_pdf Ref.empty_world)
  = (Ok (py "Page one. Page two."), stored Scenarios.cv_pdf Ref.empty_world).
Proof.
  apply (extract_text_from_pdf_concat Scenarios.parsing (py "uploads/cv.pdf")
           (stored Scenarios.cv_pdf Ref.empty_world)
           (content Scenarios.cv_pdf) Scenarios.two_pages).
  - vm_compute. reflexivity.
  - reflexivity.
Defined.

Lemma split_on_absent (c : N) (p : str) : ~ In c p -> split_on c p = [p].
Proof.
  induction p as [|x p IH]; intros Hc; simpl; [reflexivity|].
  destruct (N.eqb_spec x c) as [->|_]; [exfalso; apply Hc; left; reflexivity|].
  rewrite IH; [reflexivity|]. intros H. apply Hc. right. exact H.
Qed.

Lemma split_on_first (c : N) (p rest : str) :
  ~ In c p -> split_on c (p ++ c :: rest) = p :: split_on c rest.
Proof.
  induction p as [|x p IH]; intros Hc; simpl.
  - rewrite N.eqb_refl. reflexivity.
  - destruct (N.eqb_spec x c) as [->|_]; [exfalso; apply Hc; left; reflexivity|].
    rewrite IH; [reflexivity|]. intros H. apply Hc. right. exact H.
Qed.

Lemma split_on_join (c : N) (parts : list str) :
  parts <> [] -> Forall (fun p => ~ In c p) parts ->
  split_on c (join [c] parts) = parts.
Proof.
  induction parts as [|p parts IH]; intros Hne Hall; [contradiction|].
  inversion Hall as [|? ? Hp Hrest]; subst.
  destruct parts as [|q parts].
  - simpl. apply split_on_absent, Hp.
  - change (join [c] (p :: q :: parts)) with (p ++ c :: join [c] (q :: parts)).
    rewrite split_on_first by exact Hp. f_equal. apply IH; [discriminate | exact Hrest].
Qed.

(** X5: for a stored file that the DOCX library reads, the extracted text
    is the paragraph texts joined by single newlines: when no paragraph
    contains a newline, splitting the text at the newlines gives back the
    paragraphs, empty ones included; a document without paragraphs gives
    the empty text. *)
Theorem extract_text_from_docx_paragraphs (E : Env) (file_path : str) (w : world)
    (doc : bytes) (paragraphs : list str) :
  files w !! file_path = Some doc ->
  docx_paragraph_texts E doc = Ok paragraphs ->
  exists text : str,
    extract_text_from_docx E file_path w = (Ok text, w)
    /\ (paragraphs = [] -> text = [])
    /\ (paragraphs <> [] -> Forall (fun p => ~ In 10%N p) paragraphs ->
        split_on 10 text = paragraphs).
Proof.
  intros Hfile Hdoc. exists (join nl paragraphs). split; [|split].
  - unfold extract_text_from_docx, bind, open_docx, lift, ret.
    rewrite Hfile, Hdoc. reflexivity.
  - intros ->. reflexivity.
  - intros Hne Hall. apply split_on_join; assumption.
Qed.

Lemma extract_text_from_docx_paragraphs_witness :
  exists text : str,
    extract_text_from_docx Scenarios.parsing (py "uploads/cv.docx")
      (stored Scenarios.cv_docx Ref.empty_world)
    = (Ok text, stored Scenarios.cv_docx Ref.empty_world)
    /\ split_on 10 text = Scenarios.three_paragraphs.
Proof.
  destruct (extract_text_from_docx_paragraphs Scenarios.parsing (py "uploads/cv.docx")
              (stored Scenarios.cv_docx Ref.empty_world)
              (content Scenarios.cv_docx) Scenarios.three_paragraphs)
    as (text & Hrun & _ & Hsplit).
  - vm_compute. reflexivity.
  - reflexivity.
  - exists text. split; [exact Hrun|]. apply Hsplit; [discriminate|].
    repeat constructor; vm_compute; intuition discriminate.
Defined.

(** X6: [extract_text_from_file] only reads: whatever it returns or raises,
    the file system and the trace are as before.  Where there is no file at
    the path, a name ending in .pdf or .txt raises [FileNotFoundError] (from
    [open]) and a name ending in .docx raises the [PackageNotFoundError] of
    the DOCX library; an exception of the PDF library is raised
    unchanged. *)
Theorem extract_text_from_file_reads_only (E : Env) (file_path name : str)
    (w : world) :
  snd (extract_text_from_file E file_path name w) = w
  /\ (endswith name (py ".pdf") = true \/ endswith name (py ".txt") = true ->
      files w !! file_path = None ->
      exists msg : str,
        fst (extract_text_from_file E file_path name w)
        = Raise (FileNotFoundError msg))
  /\ (endswith name (py ".docx") = true ->
      files w !! file_path = None ->
      exists msg : str,
        fst (extract_text_from_file E file_path name w)
        = Raise (LibraryError (py "PackageNotFoundError") msg))
  /\ (forall (file : bytes) (e : exn),
      endswith name (py ".pdf") = true -> files w !! file_path = Some file ->
      pdf_page_texts E file = Raise e ->
      fst (extract_text_from_file E file_path name w) = Raise e).
Proof.
  destruct (endswith_exclusive name) as (Hpdf & Hdocx & Htxt).
  split; [apply extract_text_from_file_world|]. split; [|split].
  - intros Hs Hfile. exists file_path.
    unfold extract_text_from_file, extract_text_from_pdf, bind, read_file.
    destruct Hs as [Hs|Hs].
    + rewrite Hs, Hfile. reflexivity.
    + destruct (Htxt Hs) as [-> ->]. rewrite Hs, Hfile. reflexivity.
  - intros Hs Hfile. eexists.
    unfold extract_text_from_file, extract_text_from_docx, bind, open_docx.
    destruct (Hdocx Hs) as [-> _]. rewrite Hs, Hfile. reflexivity.
  - intros file e Hs Hfile He.
    unfold extract_text_from_file, extract_text_from_pdf, bind, read_file, lift.
    rewrite Hs, Hfile, He. reflexivity.
Qed.

Lemma extract_text_from_file_reads_only_witness :
  (exists msg : str,
     fst (extract_text_from_file Examples.unreachable (py "uploads/cv.txt") (py "cv.txt")
            Ref.empty_world)
     = Raise (FileNotFoundError msg))
  /\ (exists msg : str,
     fst (extract_text_from_file Examples.unreachable (py "uploads/cv.docx")
            (py "cv.docx") Ref.empty_world)
     = Raise (LibraryError (py "PackageNotFoundError") msg))
  /\ fst (extract_text_from_file Examples.unreachable (py "uploads/cv.pdf") (py "cv.pdf")
            (stored Scenarios.cv_pdf Ref.empty_world))
     = Raise (LibraryError (py "PdfReadError") (py "EOF marker not found")).
Proof.
  destruct (extract_text_from_file_reads_only Examples.unreachable
              (py "uploads/cv.txt") (py "cv.txt") Ref.empty_world) as (_ & Hmissing & _).
  destruct (extract_text_from_file_reads_only Examples.unreachable
              (py "uploads/cv.docx") (py "cv.docx") Ref.empty_world)
    as (_ & _ & Hpackage & _).
  destruct (extract_text_from_file_reads_only Examples.unreachable
              (py "uploads/cv.pdf") (py "cv.pdf")
              (stored Scenarios.cv_pdf Ref.empty_world)) as (_ & _ & _ & Hlib).
  split; [|split].
  - apply Hmissing; [right; reflexivity | reflexivity].
  - apply Hpackage; reflexivity.
  - apply (Hlib (content Scenarios.cv_pdf)); [reflexivity | vm_compute; reflexivity | reflexivity].
Defined.

(** ** The three calls of the remote service *)

Lemma contains_prefix (s rest : str) : contains (s ++ rest) s = true.
Proof.
  assert (startswith (s ++ rest) s = true) as H
    by (apply startswith_app; exists rest; reflexivity).
  destruct (s ++ rest); simpl; rewrite H; reflexivity.
Qed.

Lemma contains_skip (a x s : str) : contains x s = true -> contains (a ++ x) s = true.
Proof.
  intros H. induction a as [|c a IH]; [exact H|].
  simpl. rewrite IH. apply orb_true_r.
Qed.

(** X7: each prompt carries the caller's text whole: the analysis and the
    question prompts contain the full resume text, and the evaluation
    prompt contains the question and the answer. *)
Theorem prompts_embed_input (resume_text question answer : str) :
  contains (analysis_prompt resume_text) resume_text = true
  /\ contains (questions_prompt resume_text) resume_text = true
  /\ contains (evaluation_prompt question answer) question = true
  /\ contains (evaluation_prompt question answer) answer = true.
Proof.
  repeat split.
  - unfold analysis_prompt. cbn [join].
    do 6 apply contains_skip. apply contains_prefix.
  - unfold questions_prompt. cbn [join].
    do 6 apply contains_skip. apply contains_prefix.
  - unfold evaluation_prompt. cbn [join]. rewrite <- !app_assoc.
    do 5 apply contains_skip. apply contains_prefix.
  - unfold evaluation_prompt. cbn [join]. rewrite <- !app_assoc.
    do 8 apply contains_skip. apply contains_prefix.
Qed.

Lemma generate_interview_questions_run (E : Env) (text : str) (w : world) :
  generate_interview_questions E text w
  = (Ok match chat_completions_create E (questions_request text) with
        | Ok (Some response_text) =>
            match json_loads E (clean_response response_text) with
            | Ok decoded => decoded
            | Raise _ => questions_fallback
            end
        | Ok None | Raise _ => questions_fallback
        end,
     log (EvCompletion (questions_request text)) w).
Proof.
  unfold generate_interview_questions, try_except.
  pose proof (complete_and_decode_world E (questions_request text) w) as Hw.
  pose proof (complete_and_decode_result E (questions_request text) w) as Hr.
  destruct (complete_and_decode E (questions_request text) w) as [r w1].
  simpl in Hw, Hr. subst w1 r.
  destruct (chat_completions_create E (questions_request text))
    as [[c|]|e]; try reflexivity.
  destruct (json_loads E (clean_response c)); reflexivity.
Qed.

(** X8: [generate_interview_questions] returns for every resume text,
    whatever the client and the decoder do, after exactly one call of the
    remote service: the decoded object as it is when the call and the
    decoding succeed, and in every other case (an exception of the client,
    of whatever class, a message without content, text that is not JSON)
    the fixed fallback with five technical, five behavioural and three
    situational questions. *)
Theorem generate_interview_questions_total (E : Env) (resume_text : str)
    (w : world) :
  (exists questions : pyobj,
     generate_interview_questions E resume_text w
     = (Ok questions, log (EvCompletion (questions_request resume_text)) w)
     /\ (forall response_text decoded,
           chat_completions_create E (questions_request resume_text)
           = Ok (Some response_text) ->
           json_loads E (clean_response response_text) = Ok decoded ->
           questions = decoded)
     /\ (forall e, chat_completions_create E (questions_request resume_text) = Raise e ->
           questions = questions_fallback)
     /\ (chat_completions_create E (questions_request resume_text) = Ok None ->
           questions = questions_fallback)
     /\ (forall response_text e,
           chat_completions_create E (questions_request resume_text)
           = Ok (Some response_text) ->
           json_loads E (clean_response response_text) = Raise e ->
           questions = questions_fallback))
  /\ list_length_at (py "technical_questions") questions_fallback = Some 5%nat
  /\ list_length_at (py "behavioral_questions") questions_fallback = Some 5%nat
  /\ list_length_at (py "situational_questions") questions_fallback = Some 3%nat.
Proof.
  split; [|repeat split].
  eexists. split; [apply generate_interview_questions_run|].
  repeat split.
  - intros c v Hc Hv. rewrite Hc, Hv. reflexivity.
  - intros e He. rewrite He. reflexivity.
  - intros Hc. rewrite Hc. reflexivity.
  - intros c e Hc He. rewrite Hc, He. reflexivity.
Qed.

Lemma generate_interview_questions_total_witness :
  fst (generate_interview_questions Scenarios.undecodable_reply Examples.resume_text
         Ref.empty_world) = Ok questions_fallback
  /\ fst (generate_interview_questions (Examples.answering Examples.fenced_response)
            Examples.resume_text Ref.empty_world) = Ok (PDict [(py "a", PInt 1)]).
Proof.
  split.
  - destruct (generate_interview_questions_total Scenarios.undecodable_reply
                Examples.resume_text Ref.empty_world)
      as ((questions & Hrun & _ & Hraise & _) & _).
    rewrite Hrun. simpl fst. f_equal.
    apply (Hraise (JSONDecodeError (py "Expecting value: line 1 column 1 (char 0)"))).
    reflexivity.
  - destruct (generate_interview_questions_total
                (Examples.answering Examples.fenced_response)
                Examples.resume_text Ref.empty_world)
      as ((questions & Hrun & Hok & _) & _).
    rewrite Hrun. simpl fst. f_equal.
    apply (Hok Examples.fenced_response); [reflexivity | vm_compute; reflexivity].
Defined.

(** X9: when the completion has no content ([None]), calling [strip] on it
    raises [AttributeError], which each function turns into its fallback:
    the analysis answers with the error fallback, whose summary quotes the
    message of the exception, and the two other functions with their fixed
    fallbacks. *)
Theorem completion_without_content (E : Env) (resume_text question answer : str)
    (w : world) :
  (chat_completions_create E (analysis_request resume_text) = Ok None ->
   fst (analyze_resume_with_ai E resume_text w)
   = Ok (analysis_fallback_error E none_has_no_strip)
   /\ dict_get (py "summary") (analysis_fallback_error E none_has_no_strip)
      = Some (PStr (py "Error occurred: 'NoneType' object has no attribute 'strip'")))
  /\ (chat_completions_create E (questions_request resume_text) = Ok None ->
      fst (generate_interview_questions E resume_text w) = Ok questions_fallback)
  /\ (chat_completions_create E (evaluation_request question answer) = Ok None ->
      fst (evaluate_answer E question answer w) = Ok evaluation_fallback).
Proof.
  split; [|split].
  - intros Hc. rewrite analyze_resume_with_ai_result, Hc. split; reflexivity.
  - intros Hc. rewrite generate_interview_questions_run. simpl fst.
    rewrite Hc. reflexivity.
  - intros Hc. rewrite evaluate_answer_run. simpl fst. rewrite Hc. reflexivity.
Qed.

Lemma completion_without_content_witness :
  fst (analyze_resume_with_ai Scenarios.silent Examples.resume_text Ref.empty_world)
  = Ok (analysis_fallback_error Scenarios.silent none_has_no_strip)
  /\ fst (generate_interview_questions Scenarios.silent Examples.resume_text
            Ref.empty_world) = Ok questions_fallback
  /\ fst (evaluate_answer Scenarios.silent (py "Why Go?") (py "Because I like it.")
            Ref.empty_world) = Ok evaluation_fallback.
Proof.
  destruct (completion_without_content Scenarios.silent Examples.resume_text
              (py "Why Go?") (py "Because I like it.") Ref.empty_world)
    as (Ha & Hq & Hv).
  split; [apply Ha; reflexivity|]. split; [apply Hq | apply Hv]; reflexivity.
Defined.

(** X10: when the client call itself raises [json.JSONDecodeError], the
    handler of [analyze_resume_with_ai] for that class reads
    [response_text] before any assignment to it, so the function raises
    [UnboundLocalError] instead of returning a fallback; [upload_resume]
    then answers HTTP 500, and the scratch file is removed all the same. *)
Theorem analysis_client_decode_error (E : Env) (file : UploadFile) (w : world)
    (text msg : str) :
  str_in (str_lower E (snd (splitext (filename file)))) allowed_extensions = true ->
  open_wb_ok E (upload_path file) = true ->
  extracted E file w = Ok text ->
  (50 <= length (strip text))%nat ->
  chat_completions_create E (analysis_request text) = Raise (JSONDecodeError msg) ->
  (exists m : str,
     fst (analyze_resume_with_ai E text (stored file w)) = Raise (UnboundLocalError m))
  /\ status (fst (serve (upload_resume E file) w)) = 500
  /\ files (snd (serve (upload_resume E file) w)) !! upload_path file = None.
Proof.
  intros Hext Hopen Hx Hlen Hc.
  assert (fst (analyze_resume_with_ai E text (stored file w))
          = Raise (unbound_local "response_text")) as Ha.
  { rewrite analyze_resume_with_ai_result, Hc. reflexivity. }
  split; [eexists; exact Ha|].
  unfold serve. rewrite upload_resume_run by assumption. rewrite Hx. cbv zeta.
  replace (length (strip text) <? 50)%nat with false
    by (symmetry; apply Nat.ltb_ge; exact Hlen).
  rewrite Ha. split; [reflexivity|]. simpl.
  apply lookup_delete_eq.
Qed.

Lemma analysis_client_decode_error_witness :
  status (fst (serve (upload_resume Scenarios.undecodable_reply Examples.resume_txt)
                 Ref.empty_world)) = 500
  /\ files (snd (serve (upload_resume Scenarios.undecodable_reply Examples.resume_txt)
                   Ref.empty_world)) !! upload_path Examples.resume_txt = None.
Proof.
  apply (analysis_client_decode_error Scenarios.undecodable_reply Examples.resume_txt
           Ref.empty_world Examples.resume_text
           (py "Expecting value: line 1 column 1 (char 0)")).
  - vm_compute. reflexivity.
  - vm_compute. reflexivity.
  - vm_compute. reflexivity.
  - apply Nat.leb_le. vm_compute. reflexivity.
  - reflexivity.
Defined.

(** ** The upload endpoints, case by case *)

Lemma completions_removed_stored (file : UploadFile) (w : world) :
  completions w (removed (upload_path file) (stored file w)) = [].
Proof.
  unfold completions. rewrite (new_events_app _ _ [EvWrite (upload_path file);
                                                   EvRemove (upload_path file)]).
  - reflexivity.
  - simpl. rewrite <- app_assoc. reflexivity.
Qed.

Lemma completions_removed_completed (file : UploadFile) (w : world)
    (req : completion_request) :
  completions w (removed (upload_path file) (log (EvCompletion req) (stored file w)))
  = [EvCompletion req].
Proof.
  unfold completions.
  rewrite (new_events_app _ _ [EvWrite (upload_path file); EvCompletion req;
                                EvRemove (upload_path file)]).
  - reflexivity.
  - simpl. rewrite <- !app_assoc. reflexivity.
Qed.

Lemma completions_none (w : world) : completions w w = [].
Proof. unfold completions, new_events. rewrite drop_all. reflexivity. Qed.

Lemma completions_store_failed (E : Env) (file : UploadFile) (w : world) :
  completions w (store_failed E file w) = [].
Proof.
  unfold store_failed. destruct (interrupted_store E (upload_path file)).
  - unfold completions, new_events. simpl. rewrite drop_all. reflexivity.
  - apply completions_none.
Qed.

Lemma serve_snd (handler : M pyobj) (w : world) :
  snd (serve handler w) = snd (handler w).
Proof. unfold serve. destruct (handler w). reflexivity. Qed.

Lemma serve_fst (handler : M pyobj) (w : world) :
  fst (serve handler w) = respond (fst (handler w)).
Proof. unfold serve. destruct (handler w). reflexivity. Qed.

(** X11: [upload_resume] calls the remote service at most once per
    request, and exactly when the extension is accepted, the upload could
    be stored, the extraction succeeded and the trimmed text has at least
    50 characters (50 itself is enough); the one call then carries the
    analysis prompt of the whole extracted text. *)
Theorem upload_resume_completions (E : Env) (file : UploadFile) (w : world) :
  completions w (snd (serve (upload_resume E file) w))
  = if str_in (str_lower E (snd (splitext (filename file)))) allowed_extensions
       && open_wb_ok E (upload_path file)
    then match extracted E file w with
         | Ok text =>
             if (50 <=? length (strip text))%nat
             then [EvCompletion (analysis_request text)]
             else []
         | Raise _ => []
         end
    else [].
Proof.
  rewrite serve_snd.
  destruct (str_in _ allowed_extensions) eqn:Hext; simpl andb.
  - destruct (open_wb_ok E (upload_path file)) eqn:Hopen.
    + rewrite upload_resume_run by assumption. cbv zeta.
      destruct (extracted E file w) as [text|e].
      * rewrite Nat.leb_antisym.
        destruct (length (strip text) <? 50)%nat; simpl.
        -- apply completions_removed_stored.
        -- apply completions_removed_completed.
      * apply completions_removed_stored.
    + rewrite upload_resume_unwritable by assumption. apply completions_store_failed.
  - rewrite upload_resume_rejected by assumption. apply completions_none.
Qed.

Lemma upload_resume_returns (E : Env) (file : UploadFile) (w : world) (v : pyobj) :
  fst (upload_resume E file w) = Ok v
  <-> str_in (str_lower E (snd (splitext (filename file)))) allowed_extensions = true
      /\ open_wb_ok E (upload_path file) = true
      /\ exists (text : str) (analysis : pyobj),
           extracted E file w = Ok text
           /\ (50 <= length (strip text))%nat
           /\ fst (analyze_resume_with_ai E text (stored file w)) = Ok analysis
           /\ v = resume_envelope file analysis text.
Proof.
  destruct (str_in _ allowed_extensions) eqn:Hext.
  - destruct (open_wb_ok E (upload_path file)) eqn:Hopen.
    + rewrite upload_resume_run by assumption. cbv zeta.
      destruct (extracted E file w) as [text|e].
      * destruct (Nat.ltb_spec (length (strip text)) 50) as [Hshort|Hlong]; simpl fst.
        -- split; [discriminate|]. intros (_ & _ & t & a & Ht & Hlen & _).
           injection Ht as <-. lia.
        -- destruct (fst (analyze_resume_with_ai E text (stored file w)))
             as [analysis|e] eqn:Ha.
           ++ split.
              ** intros Hv. injection Hv as <-. repeat split.
                 exists text, analysis. repeat split; assumption.
              ** intros (_ & _ & t & a & Ht & _ & Hat & ->).
                 injection Ht as <-. rewrite Ha in Hat. injection Hat as <-.
                 reflexivity.
           ++ split; [discriminate|]. intros (_ & _ & t & a & Ht & _ & Hat & _).
              injection Ht as <-. rewrite Ha in Hat. discriminate.
      * simpl fst. split; [discriminate|].
        intros (_ & _ & t & a & Ht & _). discriminate.
    + rewrite upload_resume_unwritable by assumption. simpl fst.
      split; [discriminate|]. intros (_ & Hf & _). discriminate.
  - rewrite upload_resume_rejected by assumption. simpl fst.
    split; [discriminate|]. intros (Hf & _). discriminate.
Qed.

Lemma upload_resume_raises (E : Env) (file : UploadFile) (w : world) (e : exn) :
  fst (upload_resume E file w) = Raise e ->
  status (respond (Raise e)) = 400 \/ status (respond (Raise e)) = 500.
Proof.
  destruct (str_in (str_lower E (snd (splitext (filename file)))) allowed_extensions)
    eqn:Hext.
  - destruct (open_wb_ok E (upload_path file)) eqn:Hopen.
    + rewrite upload_resume_run by assumption. cbv zeta.
      destruct (extracted E file w) as [text|e'].
      * destruct (length (strip text) <? 50)%nat; simpl fst.
        -- intros H. injection H as <-. right. reflexivity.
        -- destruct (fst (analyze_resume_with_ai E text (stored file w)));
             [discriminate|]. intros H. injection H as <-. right. reflexivity.
      * simpl fst. intros H. injection H as <-. right. reflexivity.
    + rewrite upload_resume_unwritable by assumption. simpl fst.
      intros H. injection H as <-. right. reflexivity.
  - rewrite upload_resume_rejected by assumption. simpl fst.
    intros H. injection H as <-. left. reflexivity.
Qed.

(** X12: [upload_resume] is answered with status 200, 400 or 500 and no
    other, and with 200 exactly when the extension is accepted, the upload
    is stored, the extraction succeeds, the trimmed text has at least 50
    characters, [analyze_resume_with_ai] returns an analysis and the
    envelope that holds it renders as JSON. *)
Theorem upload_resume_status (E : Env) (file : UploadFile) (w : world) :
  (status (sent (fst (serve (upload_resume E file) w))) = 200
   \/ status (sent (fst (serve (upload_resume E file) w))) = 400
   \/ status (sent (fst (serve (upload_resume E file) w))) = 500)
  /\ (status (sent (fst (serve (upload_resume E file) w))) = 200
      <-> str_in (str_lower E (snd (splitext (filename file)))) allowed_extensions
          = true
          /\ open_wb_ok E (upload_path file) = true
          /\ exists (text : str) (analysis : pyobj),
               extracted E file w = Ok text
               /\ (50 <= length (strip text))%nat
               /\ fst (analyze_resume_with_ai E text (stored file w)) = Ok analysis
               /\ json_compliant (resume_envelope file analysis text) = true).
Proof.
  rewrite serve_fst.
  destruct (fst (upload_resume E file w)) as [v|e] eqn:Hrun.
  - split.
    + destruct (sent_status_cases (respond (Ok v))) as [-> | ->]; simpl; tauto.
    + rewrite sent_status_200. simpl status. simpl body.
      apply upload_resume_returns in Hrun
        as (Hext & Hopen & text & analysis & Hx & Hlen & Ha & ->).
      split.
      * intros [_ Hc]. repeat split; try assumption.
        exists text, analysis. repeat split; assumption.
      * intros (_ & _ & t & a & Ht & _ & Hat & Hc). split; [reflexivity|].
        rewrite Hx in Ht. injection Ht as <-.
        rewrite Ha in Hat. injection Hat as <-. exact Hc.
  - pose proof (upload_resume_raises E file w e Hrun) as Hst.
    split.
    + destruct (sent_status_cases (respond (Raise e))) as [-> | ->]; tauto.
    + rewrite sent_status_200. split.
      * intros [H200 _]. destruct Hst as [Hst|Hst]; rewrite Hst in H200; discriminate.
      * intros (Hext & Hopen & text & analysis & Hx & Hlen & Ha & _).
        assert (fst (upload_resume E file w)
                = Ok (resume_envelope file analysis text)) as Hok.
        { apply upload_resume_returns. repeat split; try assumption.
          exists text, analysis. repeat split; assumption. }
        rewrite Hrun in Hok. discriminate.
Qed.

Lemma upload_resume_status_witness :
  status (sent (fst (serve (upload_resume Examples.unreachable Examples.resume_txt)
                       Ref.empty_world))) = 200.
Proof.
  apply (proj2 (proj2 (upload_resume_status Examples.unreachable Examples.resume_txt
                         Ref.empty_world))).
  split; [vm_compute; reflexivity|]. split; [vm_compute; reflexivity|].
  exists Examples.resume_text,
    (analysis_fallback_error Examples.unreachable Examples.connection_error).
  split; [vm_compute; reflexivity|].
  split; [apply Nat.leb_le; vm_compute; reflexivity|].
  split; vm_compute; reflexivity.
Defined.

(** X13: when the extraction fails in [upload_resume] (a damaged PDF or
    DOCX, bytes that are not UTF-8), the answer is HTTP 500 with the detail
    "Error processing resume: " followed by the message of the exception;
    the remote service is not called and the stored upload is removed. *)
Theorem upload_resume_extraction_error (E : Env) (file : UploadFile) (w : world)
    (e : exn) :
  str_in (str_lower E (snd (splitext (filename file)))) allowed_extensions = true ->
  open_wb_ok E (upload_path file) = true ->
  extracted E file w = Raise e ->
  serve (upload_resume E file) w
  = ({| status := 500;
        body := detail_body (py "Error processing resume: " ++ exn_str E e) |},
     removed (upload_path file) (stored file w))
  /\ completions w (snd (serve (upload_resume E file) w)) = [].
Proof.
  intros Hext Hopen Hx.
  assert (upload_resume E file w
          = (Raise (HTTPException 500 (py "Error processing resume: " ++ exn_str E e)),
             removed (upload_path file) (stored file w))) as Hrun.
  { rewrite upload_resume_run by assumption. rewrite Hx. reflexivity. }
  split.
  - unfold serve. rewrite Hrun. reflexivity.
  - rewrite serve_snd, Hrun. apply completions_removed_stored.
Qed.

Lemma upload_resume_extraction_error_witness :
  serve (upload_resume Examples.unreachable Scenarios.cv_pdf) Ref.empty_world
  = ({| status := 500;
        body := detail_body (py "Error processing resume: EOF marker not found") |},
     removed (upload_path Scenarios.cv_pdf) (stored Scenarios.cv_pdf Ref.empty_world))
  /\ completions Ref.empty_world
       (snd (serve (upload_resume Examples.unreachable Scenarios.cv_pdf)
               Ref.empty_world)) = [].
Proof.
  apply (upload_resume_extraction_error Examples.unreachable Scenarios.cv_pdf
           Ref.empty_world
           (LibraryError (py "PdfReadError") (py "EOF marker not found")));
    vm_compute; reflexivity.
Defined.

(** X14: [generate_questions] validates nothing before it stores the
    upload: for a name with none of the three suffixes the file is written,
    the dispatcher raises, and the answer is HTTP 500 with the detail
    "Error generating questions: Unsupported file type" (not the 400 of
    [upload_resume]); the remote service is not called and the file is
    removed. *)
Theorem generate_questions_unsupported (E : Env) (file : UploadFile) (w : world) :
  has_supported_suffix (filename file) = false ->
  open_wb_ok E (upload_path file) = true ->
  serve (generate_questions E file) w
  = ({| status := 500;
        body := detail_body (py "Error generating questions: Unsupported file type") |},
     removed (upload_path file) (stored file w))
  /\ new_events w (snd (serve (generate_questions E file) w))
     = [EvWrite (upload_path file); EvRemove (upload_path file)].
Proof.
  intros Hs Hopen. unfold has_supported_suffix in Hs.
  apply orb_false_iff in Hs as [Hs Htxt]. apply orb_false_iff in Hs as [Hpdf Hdocx].
  assert (extracted E file w = Raise (ValueError (py "Unsupported file type"))) as Hx.
  { unfold extracted.
    rewrite extract_text_from_file_unsupported by assumption. reflexivity. }
  assert (generate_questions E file w
          = (Raise (HTTPException 500
                      (py "Error generating questions: Unsupported file type")),
             removed (upload_path file) (stored file w))) as Hrun.
  { rewrite generate_questions_run by assumption. rewrite Hx. reflexivity. }
  split.
  - unfold serve. rewrite Hrun. reflexivity.
  - rewrite serve_snd, Hrun. apply new_events_app. simpl.
    rewrite <- app_assoc. reflexivity.
Qed.

Lemma generate_questions_unsupported_witness :
  serve (generate_questions Examples.unreachable Examples.xyz_file) Ref.empty_world
  = ({| status := 500;
        body := detail_body (py "Error generating questions: Unsupported file type") |},
     removed (upload_path Examples.xyz_file) (stored Examples.xyz_file Ref.empty_world))
  /\ new_events Ref.empty_world
       (snd (serve (generate_questions Examples.unreachable Examples.xyz_file)
               Ref.empty_world))
     = [EvWrite (upload_path Examples.xyz_file);
        EvRemove (upload_path Examples.xyz_file)].
Proof.
  apply (generate_questions_unsupported Examples.unreachable Examples.xyz_file
           Ref.empty_world); vm_compute; reflexivity.
Defined.

(** X15: [generate_questions] has no minimum length: whenever the upload is
    stored and the extraction succeeds, for any text, the empty one
    included, the remote service is called once with the question prompt of
    that text and the handler returns [success] true with the questions
    that [generate_interview_questions] returned.  The answer is sent with
    HTTP 200 when the questions render as JSON, which the fallback always
    does, and with a bare 500 when they do not. *)
Theorem generate_questions_any_text (E : Env) (file : UploadFile) (w : world)
    (text : str) :
  open_wb_ok E (upload_path file) = true ->
  extracted E file w = Ok text ->
  exists questions : pyobj,
    fst (generate_interview_questions E text (stored file w)) = Ok questions
    /\ generate_questions E file w
       = (Ok (PDict [(py "success", PBool true); (py "questions", questions)]),
          removed (upload_path file)
            (log (EvCompletion (questions_request text)) (stored file w)))
    /\ completions w (snd (serve (generate_questions E file) w))
       = [EvCompletion (questions_request text)]
    /\ sent (fst (serve (generate_questions E file) w))
       = (if json_compliant questions
          then {| status := 200;
                  body := PDict [(py "success", PBool true);
                                 (py "questions", questions)] |}
          else internal_server_error)
    /\ json_compliant questions_fallback = true.
Proof.
  intros Hopen Hx.
  destruct (generate_interview_questions_ok E text (stored file w)) as [questions Hq].
  exists questions. rewrite Hq. split; [reflexivity|].
  assert (generate_questions E file w
          = (Ok (PDict [(py "success", PBool true); (py "questions", questions)]),
             removed (upload_path file)
               (log (EvCompletion (questions_request text)) (stored file w)))) as Hrun.
  { rewrite generate_questions_run by assumption. rewrite Hx, Hq. reflexivity. }
  split; [exact Hrun|]. split; [|split; [|reflexivity]].
  - rewrite serve_snd, Hrun. apply completions_removed_completed.
  - rewrite serve_fst, Hrun. cbn [fst]. rewrite sent_ok.
    rewrite (json_compliant_envelope "questions") by reflexivity. reflexivity.
Qed.

Lemma generate_questions_any_text_witness :
  exists questions : pyobj,
    fst (generate_interview_questions Examples.unreachable []
           (stored Scenarios.empty_txt Ref.empty_world)) = Ok questions
    /\ generate_questions Examples.unreachable Scenarios.empty_txt Ref.empty_world
       = (Ok (PDict [(py "success", PBool true); (py "questions", questions)]),
          removed (upload_path Scenarios.empty_txt)
            (log (EvCompletion (questions_request []))
               (stored Scenarios.empty_txt Ref.empty_world)))
    /\ completions Ref.empty_world
         (snd (serve (generate_questions Examples.unreachable Scenarios.empty_txt)
                 Ref.empty_world))
       = [EvCompletion (questions_request [])]
    /\ sent (fst (serve (generate_questions Examples.unreachable Scenarios.empty_txt)
                    Ref.empty_world))
       = (if json_compliant questions
          then {| status := 200;
                  body := PDict [(py "success", PBool true);
                                 (py "questions", questions)] |}
          else internal_server_error)
    /\ json_compliant questions_fallback = true.
Proof.
  apply (generate_questions_any_text Examples.unreachable Scenarios.empty_txt
           Ref.empty_world []); vm_compute; reflexivity.
Defined.

(** X16: [generate_questions] is answered with status 200 or 500 and no
    other (never 400), and with 200 exactly when the upload is stored, the
    extraction succeeds and the questions that
    [generate_interview_questions] returns render as JSON. *)
Theorem generate_questions_status (E : Env) (file : UploadFile) (w : world) :
  (status (sent (fst (serve (generate_questions E file) w))) = 200
   \/ status (sent (fst (serve (generate_questions E file) w))) = 500)
  /\ (status (sent (fst (serve (generate_questions E file) w))) = 200
      <-> open_wb_ok E (upload_path file) = true
          /\ exists (text : str) (questions : pyobj),
               extracted E file w = Ok text
               /\ fst (generate_interview_questions E text (stored file w))
                  = Ok questions
               /\ json_compliant questions = true).
Proof.
  rewrite serve_fst. split.
  - destruct (sent_status_cases (respond (fst (generate_questions E file w))))
      as [Hs|Hs]; rewrite Hs; [|tauto].
    destruct (open_wb_ok E (upload_path file)) eqn:Hopen.
    + rewrite generate_questions_run by assumption.
      destruct (extracted E file w) as [text|e]; [|simpl; tauto].
      destruct (generate_interview_questions_ok E text (stored file w)) as [q Hq].
      rewrite Hq. simpl. tauto.
    + rewrite generate_questions_unwritable by assumption. simpl. tauto.
  - rewrite sent_status_200.
    destruct (open_wb_ok E (upload_path file)) eqn:Hopen.
    + rewrite generate_questions_run by assumption.
      destruct (extracted E file w) as [text|e].
      * destruct (generate_interview_questions_ok E text (stored file w)) as [q Hq].
        rewrite Hq. cbn [fst respond status body].
        rewrite (json_compliant_envelope "questions") by reflexivity. split.
        -- intros [_ Hc]. split; [reflexivity|]. exists text, q.
           split; [reflexivity|]. split; [rewrite Hq; reflexivity | exact Hc].
        -- intros (_ & t & q' & Ht & Hq' & Hc'). split; [reflexivity|].
           injection Ht as <-. rewrite Hq in Hq'. injection Hq' as <-. exact Hc'.
      * simpl. split; [intros [H _]; discriminate|].
        intros (_ & t & q & Ht & _). discriminate.
    + rewrite generate_questions_unwritable by assumption. simpl.
      split; [intros [H _]; discriminate|]. intros (Hf & _). discriminate.
Qed.

Lemma generate_questions_status_witness :
  status (sent (fst (serve (generate_questions Examples.unreachable Examples.resume_txt)
                       Ref.empty_world))) = 200.
Proof.
  apply (proj2 (proj2 (generate_questions_status Examples.unreachable
                         Examples.resume_txt Ref.empty_world))).
  split; [vm_compute; reflexivity|].
  exists Examples.resume_text, questions_fallback.
  split; [vm_compute; reflexivity|]. split; vm_compute; reflexivity.
Defined.

(** ** The file at the scratch path *)

Lemma scratch_path_vacant (E : Env) (file : UploadFile) (w : world) :
  open_wb_ok E (upload_path file) = true ->
  files (snd (generate_questions E file w)) !! upload_path file = None
  /\ (str_in (str_lower E (snd (splitext (filename file)))) allowed_extensions = true ->
      files (snd (upload_resume E file w)) !! upload_path file = None).
Proof.
  intros Hopen. split.
  - rewrite generate_questions_run by assumption.
    destruct (extracted E file w); simpl; apply lookup_delete_eq.
  - intros Hext. rewrite upload_resume_run by assumption. cbv zeta.
    destruct (extracted E file w) as [text|e];
      [destruct (length (strip text) <? 50)%nat|]; simpl; apply lookup_delete_eq.
Qed.

(** X18: the scratch path is the upload directory joined with the name the
    client sent, so a name that begins with a slash is its own scratch
    path, outside the upload directory.  Once the upload is stored, a file
    that was at the scratch path before the request is overwritten and then
    removed with it: after the request nothing is at that path. *)
Theorem upload_replaces_existing_file (E : Env) (file : UploadFile) (w : world) :
  open_wb_ok E (upload_path file) = true ->
  files (snd (serve (generate_questions E file) w)) !! upload_path file = None
  /\ (str_in (str_lower E (snd (splitext (filename file)))) allowed_extensions = true ->
      files (snd (serve (upload_resume E file) w)) !! upload_path file = None)
  /\ upload_path file
     = if startswith (filename file) (py "/") then filename file
       else py "uploads/" ++ filename file.
Proof.
  intros Hopen. rewrite !serve_snd.
  destruct (scratch_path_vacant E file w Hopen) as [Hg Hu].
  split; [exact Hg|]. split; [exact Hu|].
  unfold upload_path, path_join.
    change (startswith (filename file) [sep_char])
      with (startswith (filename file) (py "/")).
  destruct (startswith (filename file) (py "/")); reflexivity.
Qed.

Lemma upload_replaces_existing_file_witness :
  files Scenarios.occupied !! py "/etc/motd.txt" = Some (Ref.ascii_bytes "welcome")
  /\ upload_path Scenarios.absolute_txt = py "/etc/motd.txt"
  /\ files (snd (serve (generate_questions Examples.unreachable Scenarios.absolute_txt)
                   Scenarios.occupied)) !! py "/etc/motd.txt" = None
  /\ files (snd (serve (upload_resume Examples.unreachable Scenarios.absolute_txt)
                   Scenarios.occupied)) !! py "/etc/motd.txt" = None.
Proof.
  destruct (upload_replaces_existing_file Examples.unreachable Scenarios.absolute_txt
              Scenarios.occupied) as (Hg & Hu & Hpath).
  - vm_compute. reflexivity.
  - split; [vm_compute; reflexivity|]. split; [exact Hpath|].
    split; [exact Hg|]. apply Hu. vm_compute. reflexivity.
Defined.

(** ** Requests one after the other *)

Lemma route_files_subseteq (E : Env) (req : request) (w : world) :
  store_uninterrupted E req = true ->
  files (snd (serve (route E req) w)) ⊆ files w.
Proof.
  intros Hclean. rewrite serve_snd.
  destruct req as [|file|file|data]; simpl route; simpl in Hclean.
  - reflexivity.
  - destruct (str_in (str_lower E (snd (splitext (filename file)))) allowed_extensions)
      eqn:Hext; [|rewrite upload_resume_rejected by assumption; reflexivity].
    destruct (open_wb_ok E (upload_path file)) eqn:Hopen.
    + rewrite upload_resume_run by assumption. cbv zeta.
      destruct (extracted E file w) as [text|e];
        [destruct (length (strip text) <? 50)%nat|]; simpl;
        rewrite delete_insert_eq; apply delete_subseteq.
    + rewrite upload_resume_unwritable by assumption. unfold store_failed.
      destruct (interrupted_store E (upload_path file)); [discriminate | reflexivity].
  - destruct (open_wb_ok E (upload_path file)) eqn:Hopen.
    + rewrite generate_questions_run by assumption.
      destruct (extracted E file w) as [text|e]; simpl;
        rewrite delete_insert_eq; apply delete_subseteq.
    + rewrite generate_questions_unwritable by assumption. unfold store_failed.
      destruct (interrupted_store E (upload_path file)); [discriminate | reflexivity].
  - unfold evaluate_answer_endpoint, try_except, bind.
    rewrite evaluate_answer_run. reflexivity.
Qed.

Lemma serve_all_cons (E : Env) (req : request) (rest : list request) (w : world) :
  snd (serve_all E (req :: rest) w)
  = snd (serve_all E rest (snd (serve (route E req) w))).
Proof.
  simpl. destruct (serve (route E req) w) as [r w1]. simpl.
  destruct (serve_all E rest w1). reflexivity.
Qed.

Lemma serve_all_files_subseteq (E : Env) (reqs : list request) (w : world) :
  Forall (fun req => store_uninterrupted E req = true) reqs ->
  files (snd (serve_all E reqs w)) ⊆ files w.
Proof.
  intros Hclean. revert w.
  induction Hclean as [|req rest Hreq Hrest IH]; intros w; [reflexivity|].
  rewrite serve_all_cons. etrans; [apply IH | apply route_files_subseteq, Hreq].
Qed.

(** X19: serving any sequence of requests to the four routes in which no
    store of an upload fails after its file was created, with any mix of
    outcomes otherwise, answers each request and leaves no file behind: the
    files at the end are among the files at the start (so an upload
    directory that starts empty ends empty), and the scratch path of every
    upload that was stored is vacant at the end.  A store that fails after
    the file was created is outside the [try] block: the request is
    answered with a bare 500 and the file stays. *)
Theorem serve_all_leaves_no_files (E : Env) (reqs : list request) (w : world) :
  (Forall (fun req => store_uninterrupted E req = true) reqs ->
   length (fst (serve_all E reqs w)) = length reqs
   /\ files (snd (serve_all E reqs w)) ⊆ files w
   /\ (files w = ∅ -> files (snd (serve_all E reqs w)) = ∅)
   /\ (forall file : UploadFile,
         In (PostGenerateQuestions file) reqs \/
         (In (PostUploadResume file) reqs
          /\ str_in (str_lower E (snd (splitext (filename file)))) allowed_extensions
             = true) ->
         open_wb_ok E (upload_path file) = true ->
         files (snd (serve_all E reqs w)) !! upload_path file = None))
  /\ (forall (file : UploadFile) (remains : bytes),
        open_wb_ok E (upload_path file) = false ->
        interrupted_store E (upload_path file) = Some remains ->
        sent (fst (serve (generate_questions E file) w)) = internal_server_error
        /\ files (snd (serve (generate_questions E file) w)) !! upload_path file
           = Some remains
        /\ new_events w (snd (serve (generate_questions E file) w)) = []).
Proof.
  split.
  - intros Hclean. split; [|split; [|split]].
    + clear Hclean. revert w; induction reqs as [|req rest IH]; intros w; [reflexivity|].
      simpl. destruct (serve (route E req) w) as [r w1].
      specialize (IH w1). destruct (serve_all E rest w1). simpl in *. lia.
    + apply serve_all_files_subseteq, Hclean.
    + intros Hw. pose proof (serve_all_files_subseteq E reqs w Hclean) as Hsub.
      rewrite Hw in Hsub. apply map_empty. intros i.
      eapply lookup_weaken_None; [apply lookup_empty | exact Hsub].
    + intros file Hin Hopen. revert w.
      induction Hclean as [|req rest Hreq Hrest IH]; intros w.
      * destruct Hin as [[]|[[] _]].
      * rewrite serve_all_cons.
        assert (req = PostGenerateQuestions file
                \/ (req = PostUploadResume file
                    /\ str_in (str_lower E (snd (splitext (filename file))))
                         allowed_extensions = true)
                \/ (In (PostGenerateQuestions file) rest
                    \/ In (PostUploadResume file) rest
                       /\ str_in (str_lower E (snd (splitext (filename file))))
                            allowed_extensions = true)) as Hcases.
        { destruct Hin as [[->|Hin]|[[->|Hin] Hext]]; tauto. }
        destruct Hcases as [->|[[-> Hext]|Hin']].
        -- eapply lookup_weaken_None;
             [|apply serve_all_files_subseteq, Hrest].
           rewrite serve_snd. apply (scratch_path_vacant E file w Hopen).
        -- eapply lookup_weaken_None;
             [|apply serve_all_files_subseteq, Hrest].
           rewrite serve_snd. apply (scratch_path_vacant E file w Hopen). exact Hext.
        -- apply IH. exact Hin'.
  - intros file remains Hopen Hleft.
    rewrite serve_fst, serve_snd, generate_questions_unwritable by assumption.
    unfold store_failed. rewrite Hleft. simpl. split; [reflexivity|].
    split; [apply lookup_insert_eq|]. unfold new_events. simpl. apply drop_all.
Qed.

Lemma serve_all_leaves_no_files_witness :
  List.map status (fst (serve_all Examples.unreachable Scenarios.mixed_requests
                          Ref.empty_world))
  = [200; 200; 200; 400; 200; 500; 500]
  /\ files (snd (serve_all Examples.unreachable Scenarios.mixed_requests
                   Ref.empty_world)) = ∅
  /\ files (snd (serve_all Examples.unreachable Scenarios.mixed_requests
                   Scenarios.occupied)) !! upload_path Examples.resume_txt = None
  /\ files (snd (serve (generate_questions Scenarios.disk_full Examples.resume_txt)
                   Ref.empty_world)) !! upload_path Examples.resume_txt = Some [].
Proof.
  assert (Forall (fun req => store_uninterrupted Examples.unreachable req = true)
            Scenarios.mixed_requests) as Hclean
    by (repeat constructor).
  destruct (serve_all_leaves_no_files Examples.unreachable Scenarios.mixed_requests
              Ref.empty_world) as (Hempty & _).
  destruct (Hempty Hclean) as (_ & _ & Hnone & _).
  destruct (serve_all_leaves_no_files Examples.unreachable Scenarios.mixed_requests
              Scenarios.occupied) as (Hocc & _).
  destruct (Hocc Hclean) as (_ & _ & _ & Hgone).
  destruct (serve_all_leaves_no_files Scenarios.disk_full [] Ref.empty_world)
    as (_ & Hleft).
  split; [vm_compute; reflexivity|]. split; [apply Hnone; reflexivity|].
  split; [apply Hgone; [left; simpl; tauto | vm_compute; reflexivity]|].
  apply (Hleft Examples.resume_txt []); reflexivity.
Defined.
